(** * Bidirectional LSTM outfit trainer: batch construction and training loop

    A shallow embedding of [bilstm_original/train_softmax_bi.py].

    Tensors of shape (N, D) are lists of rows of an abstract row type [E];
    padded batches of shape (B, T, D) are lists of such lists.  Python ints
    are [Z].  Calls that can raise return a [result]. *)

From Stdlib Require Import ZArith Lia Ascii.
From stdpp Require Import base numbers list sorting gmap strings.

Open Scope Z_scope.

(** ** Exceptions *)

Inductive error : Type :=
  | EmptySequenceList      (* pad_sequence: received an empty list of sequences *)
  | CannotPackEmpty        (* pack_padded_sequence: cannot pack empty tensors *)
  | BatchSizeMismatch      (* pack_padded_sequence: len(lengths) != batch size *)
  | LengthNotPositive      (* pack_padded_sequence: a length is <= 0 *)
  | LengthsNotSorted       (* pack_padded_sequence: lengths not in decreasing order *)
  | TargetOutOfBounds      (* CrossEntropyLoss: class index outside the columns *)
  | UnboundLocal           (* a local variable read before assignment *)
  | NoGradient             (* backward() on a tensor that does not require grad *)
  | ModelError.            (* raised inside a model's forward pass *)

Inductive result (A : Type) : Type :=
  | Ok (a : A)
  | Raise (e : error).
Arguments Ok {A} a.
Arguments Raise {A} e.

Definition bind {A B : Type} (r : result A) (k : A -> result B) : result B :=
  match r with
  | Ok a => k a
  | Raise e => Raise e
  end.

Notation "'do' x <- r ; k" := (bind r (fun x => k))
  (at level 10, x name, r at level 100, k at level 200).
Notation "'do' ' p <- r ; k" := (bind r (fun x => let 'p := x in k))
  (at level 10, p pattern, r at level 100, k at level 200).

(** A [for] loop whose body can raise: the first exception ends the loop. *)
Fixpoint for_each {A B : Type} (body : A -> B -> result A) (items : list B) (a : A)
  : result A :=
  match items with
  | [] => Ok a
  | x :: rest => do a' <- body a x; for_each body rest a'
  end.

(** ** Tensor indexing *)

(** A slice bound as Python resolves it on a dimension of size [n]: a negative
    bound counts from the end, and the outcome is clamped to [0, n]. *)
Definition slice_bound (n i : Z) : Z :=
  Z.max 0 (Z.min n (if i <? 0 then i + n else i)).

(** [t[lo:hi]] on dimension 0. *)
Definition py_slice {A : Type} (t : list A) (lo hi : Z) : list A :=
  let n := Z.of_nat (length t) in
  let a := slice_bound n lo in
  let b := slice_bound n hi in
  take (Z.to_nat (b - a)) (drop (Z.to_nat a) t).

(** [range(n - 1, -1, -1)] *)
Fixpoint range_down (n : nat) : list nat :=
  match n with
  | O => []
  | S k => k :: range_down k
  end.

(** [scores = a . b^T] for a of shape (M1, D) and b of shape (M2, D). *)
Definition matmul_t {A S : Type} (dot : A -> A -> S) (a b : list A) : list (list S) :=
  map (fun o => map (dot o) b) a.

(** [torch.arange(n)] *)
Definition arange (n : nat) : list nat := seq 0 n.

Section Builder.

Context {E : Type}.
(** The padding value of [pad_sequence]: the zero row. *)
Variable zero : E.

(** [tensor.index_select(0, idx)]; every index built by [flip_tensor] is in
    range. *)
Definition index_select (t : list E) (idx : list nat) : list E :=
  map (fun i => nth i t zero) idx.

Definition flip_tensor (tensor : list E) : list E :=
  let idx := range_down (length tensor) in
  index_select tensor idx.

(** [rnn_utils.pad_sequence(sequences, batch_first=True)]: every sequence is
    extended with zero rows to the longest length of the list. *)
Definition pad_sequence (sequences : list (list E)) : result (list (list E)) :=
  match sequences with
  | [] => Raise EmptySequenceList
  | _ =>
      let max_len := max_list (length <$> sequences) in
      Ok (map (fun s => s ++ replicate (max_len - length s)%nat zero) sequences)
  end.

(** Number of sequences that are still running at time step [t]: the entry
    [batch_sizes[t]] of a packed sequence. *)
Definition batch_size_at (lengths : list Z) (t : nat) : nat :=
  length (filter (fun l => Z.of_nat t < l) lengths).

(** The rows of all sequences at time step [t]. *)
Definition column (input : list (list E)) (t : nat) : list E :=
  flat_map (fun row => option_list (row !! t)) input.

Definition padded_width (input : list (list E)) : nat :=
  from_option length 0%nat (head input).

Definition sorted_decreasing (lengths : list Z) : bool :=
  bool_decide (Sorted Z.ge lengths).

(** [rnn_utils.pack_padded_sequence(input, lengths, batch_first=True)[0]]:
    the data of the packed sequence.  The lengths must be positive and in
    decreasing order (enforce_sorted is left at its default); the data lists,
    time step by time step, the rows of the sequences still running. *)
Definition pack_padded_sequence (input : list (list E)) (lengths : list Z)
  : result (list E) :=
  let batch_size := length input in
  let T := padded_width input in
  if bool_decide (batch_size = 0%nat \/ T = 0%nat) then Raise CannotPackEmpty
  else if negb (bool_decide (length lengths = batch_size)) then Raise BatchSizeMismatch
  else if bool_decide (from_option id 0 (last lengths) <= 0) then Raise LengthNotPositive
  else if negb (sorted_decreasing lengths) then Raise LengthsNotSorted
  else Ok (flat_map (fun t => take (batch_size_at lengths t) (column input t)) (seq 0 T)).

(** ** The batch builder (lines 116-148, and again 205-237) *)

(** The loop that fills [input_emb_list]. *)
Definition input_emb_loop (emb_seqs : list E) (lengths : list Z)
  : Z * list (list E) :=
  fold_left
    (fun '(start, input_emb_list) length =>
       (start + length,
        input_emb_list ++ [py_slice emb_seqs start (start + length - 1)]))
    lengths (0, []).

(** The loop that fills [target_emb_list]. *)
Definition target_emb_loop (emb_seqs : list E) (lengths : list Z)
  : Z * list (list E) :=
  fold_left
    (fun '(start, target_emb_list) length =>
       (start + length,
        target_emb_list ++ [py_slice emb_seqs (start + 1) (start + length)]))
    lengths (0, []).

Record padded : Type := {
  f_input_pad : list (list E);
  b_target_pad : list (list E);
  f_target_pad : list (list E);
  b_input_pad : list (list E)
}.

(** Lines 116-140: slicing, flipping and padding. *)
Definition pad_batch (emb_seqs : list E) (lengths : list Z) : result padded :=
  let input_emb_list := snd (input_emb_loop emb_seqs lengths) in
  do f_input_embs <- pad_sequence input_emb_list;
  do b_target_embs <- pad_sequence (map flip_tensor input_emb_list);
  let target_emb_list := snd (target_emb_loop emb_seqs lengths) in
  do f_target_embs <- pad_sequence target_emb_list;
  do b_input_embs <- pad_sequence (map flip_tensor target_emb_list);
  Ok {| f_input_pad := f_input_embs; b_target_pad := b_target_embs;
        f_target_pad := f_target_embs; b_input_pad := b_input_embs |}.

(** [[i - 1 for i in lengths]] *)
Definition effective_lengths (lengths : list Z) : list Z :=
  map (fun i => i - 1) lengths.

Record batch : Type := {
  f_input_embs : list (list E);   (* padded, (B, T, D) *)
  b_input_embs : list (list E);   (* padded, (B, T, D) *)
  f_target_embs : list E;         (* compacted, (M, D) *)
  b_target_embs : list E;         (* compacted, (M, D) *)
  seq_lengths : list Z
}.

(** Lines 116-148. *)
Definition build_batch (emb_seqs : list E) (lengths : list Z) : result batch :=
  do p <- pad_batch emb_seqs lengths;
  let seq_lengths := effective_lengths lengths in
  do f_target_embs <- pack_padded_sequence (f_target_pad p) seq_lengths;
  do b_target_embs <- pack_padded_sequence (b_target_pad p) seq_lengths;
  Ok {| f_input_embs := f_input_pad p; b_input_embs := b_input_pad p;
        f_target_embs := f_target_embs; b_target_embs := b_target_embs;
        seq_lengths := seq_lengths |}.

(** ** Reference orders, for the statements below *)

(** The running offset of outfit [i]: the sum of the lengths before it. *)
Definition offset (lengths : list Z) (i : nat) : Z :=
  foldr Z.add 0 (take i lengths).

(** A sequence extended with zero rows to [m] rows, and its length as the
    integer that [seq_lengths] holds. *)
Definition pad_to (m : nat) (s : list E) : list E :=
  s ++ replicate (m - length s)%nat zero.

Definition len (s : list E) : Z := Z.of_nat (length s).

(** Row-major order: outfit by outfit. *)
Definition row_major (seqs : list (list E)) : list E := concat seqs.

(** Time-major order: step by step, within a step outfit by outfit. *)
Definition time_major (seqs : list (list E)) : list E :=
  flat_map (column seqs) (seq 0 (max_list (length <$> seqs))).

End Builder.

(** ** The training loop (lines 103-252) *)

Inductive module_id : Type := EncoderCnn | FRnn | BRnn.

Section Training.

Context {E Img W G O Sc R : Type}.
Variable zero : E.

(** The models' forward passes, from [model.py]: the image encoder and the
    LSTM class of which [f_rnn] and [b_rnn] are two instances.  They read the
    module's weights and its training flag. *)
Variable encoder_cnn : W -> bool -> list Img -> list E.
Variable lstm_model : W -> bool -> list (list E) -> list Z -> result (list E).

(** Tensor arithmetic on scalars. *)
Variable dot : E -> E -> Sc.
Variable cross_entropy : list (list Sc) -> list nat -> R.
Variable radd : R -> R -> R.
Variable rzero : R.

(** Autograd and the optimizer: the gradient, at the current weights, of the
    computation that produced a loss (the loss as a function of the weights),
    its clipping to a maximal norm of 0.5, and one SGD step at the learning
    rate the scheduler has reached. *)
Variable backward : (W * W * W -> result R) -> W * W * W -> G.
Variable clip_grad_norm : G -> G.
Variable optimizer_step : O -> nat -> W * W * W -> G -> W * W * W * O.

(** Command line and loaders. *)
Variable epochs : Z.
Variable comment : string.
Definition log_step : nat := 50.

Record input_data : Type := {
  lengths : list Z;
  images : list Img
}.

Variable train_loader : nat -> list input_data.
Variable val_loader : nat -> list input_data.

Inductive log_record : Type :=
  | StepLog (epoch : nat) (epochs : Z) (batch_num : nat) (f_loss b_loss all_loss : R)
  | TrainLoss (epoch : nat) (total_loss : R) (batch_num : nat)
  | ValidLoss (epoch : nat) (total_loss : R) (batch_num : nat).

Inductive event : Type :=
  | SchedulerStep
  | SetTrain (m : module_id) (mode : bool)
  | ZeroGrad (m : module_id)
  | Backward (loss : R)
  | ClipGradNorm
  | OptimizerStep
  | Save (m : module_id) (path : string)
  | LogInfo (msg : log_record).

Record state : Type := {
  cnn_w : W;
  f_w : W;
  b_w : W;
  cnn_training : bool;
  f_training : bool;
  b_training : bool;
  opt : O;
  sched_steps : nat;
  checkpoints : gmap string W;   (* what torch.save has written, by path *)
  trace : list event             (* the effects so far, in order *)
}.

Definition emit (evs : list event) (st : state) : state :=
  {| cnn_w := cnn_w st; f_w := f_w st; b_w := b_w st;
     cnn_training := cnn_training st; f_training := f_training st;
     b_training := b_training st; opt := opt st;
     sched_steps := sched_steps st; checkpoints := checkpoints st;
     trace := trace st ++ evs |}.

Definition scheduler_step (st : state) : state :=
  emit [SchedulerStep]
    {| cnn_w := cnn_w st; f_w := f_w st; b_w := b_w st;
       cnn_training := cnn_training st; f_training := f_training st;
       b_training := b_training st; opt := opt st;
       sched_steps := S (sched_steps st); checkpoints := checkpoints st;
       trace := trace st |}.

(** [encoder_cnn.train(mode); f_rnn.train(mode); b_rnn.train(mode)] *)
Definition set_train (mode : bool) (st : state) : state :=
  emit [SetTrain EncoderCnn mode; SetTrain FRnn mode; SetTrain BRnn mode]
    {| cnn_w := cnn_w st; f_w := f_w st; b_w := b_w st;
       cnn_training := mode; f_training := mode; b_training := mode;
       opt := opt st; sched_steps := sched_steps st; checkpoints := checkpoints st;
       trace := trace st |}.

Definition set_weights (w : W * W * W) (o : O) (st : state) : state :=
  {| cnn_w := w.1.1; f_w := w.1.2; b_w := w.2;
     cnn_training := cnn_training st; f_training := f_training st;
     b_training := b_training st; opt := o;
     sched_steps := sched_steps st; checkpoints := checkpoints st;
     trace := trace st |}.

Definition weights (st : state) : W * W * W := (cnn_w st, f_w st, b_w st).

(** [torch.save(m.state_dict(), path)]: the file is replaced. *)
Definition save (m : module_id) (w : W) (path : string) (st : state) : state :=
  emit [Save m path]
    {| cnn_w := cnn_w st; f_w := f_w st; b_w := b_w st;
       cnn_training := cnn_training st; f_training := f_training st;
       b_training := b_training st; opt := opt st;
       sched_steps := sched_steps st; checkpoints := <[path := w]> (checkpoints st);
       trace := trace st |}.

(** [nn.CrossEntropyLoss()(input, target)]: every class index must name a
    column of its row. *)
Definition criterion (input : list (list Sc)) (target : list nat) : result R :=
  if forallb (fun '(row, c) => (c <? length row)%nat) (zip input target)
  then Ok (cross_entropy input target)
  else Raise TargetOutOfBounds.

Record losses : Type := {
  f_score : list (list Sc);
  b_score : list (list Sc);
  f_loss : R;
  b_loss : R;
  all_loss : R;
  requires_grad : bool   (* whether [all_loss] carries a graph to differentiate *)
}.

(** Lines 112-156.  The parameters require grad, and so does the loss. *)
Definition train_forward (st : state) (d : input_data) : result losses :=
  let image_seqs := images d in
  let emb_seqs := encoder_cnn (cnn_w st) (cnn_training st) image_seqs in
  do b <- build_batch zero emb_seqs (lengths d);
  do f_output <- lstm_model (f_w st) (f_training st) (f_input_embs b) (seq_lengths b);
  let f_score := matmul_t dot f_output (f_target_embs b) in
  do f_loss <- criterion f_score (arange (length f_score));
  do b_output <- lstm_model (b_w st) (b_training st) (b_input_embs b) (seq_lengths b);
  let b_score := matmul_t dot b_output (b_target_embs b) in
  do b_loss <- criterion b_score (arange (length b_score));
  let all_loss := radd f_loss b_loss in
  Ok {| f_score := f_score; b_score := b_score;
        f_loss := f_loss; b_loss := b_loss; all_loss := all_loss;
        requires_grad := true |}.

(** Lines 200-246: the same statements, with the encoder, the sequence models
    and the losses under [torch.no_grad()]: no graph is recorded, and the
    loss does not require grad. *)
Definition valid_forward (st : state) (d : input_data) : result losses :=
  let image_seqs := images d in
  let emb_seqs := encoder_cnn (cnn_w st) (cnn_training st) image_seqs in
  do b <- build_batch zero emb_seqs (lengths d);
  do f_output <- lstm_model (f_w st) (f_training st) (f_input_embs b) (seq_lengths b);
  let f_score := matmul_t dot f_output (f_target_embs b) in
  do f_loss <- criterion f_score (arange (length f_score));
  do b_output <- lstm_model (b_w st) (b_training st) (b_input_embs b) (seq_lengths b);
  let b_score := matmul_t dot b_output (b_target_embs b) in
  do b_loss <- criterion b_score (arange (length b_score));
  let all_loss := radd f_loss b_loss in
  Ok {| f_score := f_score; b_score := b_score;
        f_loss := f_loss; b_loss := b_loss; all_loss := all_loss;
        requires_grad := false |}.

(** The local variables of [train] that live across loop iterations. *)
Record locals : Type := {
  total_loss : R;
  batch_num : option nat
}.

(** The graph of [all_loss]: the loss of the batch as a function of the
    parameters, the rest of the state as it is. *)
Definition loss_at (st : state) (d : input_data) (w : W * W * W) : result R :=
  do l <- train_forward (set_weights w (opt st) st) d;
  Ok (all_loss l).

(** [all_loss.backward()]: with the grads zeroed before it, the grads it
    leaves are the gradient of this loss.  A loss that does not require grad
    cannot be differentiated. *)
Definition loss_backward (l : losses) (graph : W * W * W -> result R)
    (w : W * W * W) : result G :=
  if requires_grad l then Ok (backward graph w) else Raise NoGradient.

(** One iteration of the loop at line 111. *)
Definition train_batch (epoch : nat) (acc : state * locals)
    (item : nat * input_data) : result (state * locals) :=
  let '(st, loc) := acc in
  let '(n, d) := item in
  do l <- train_forward st d;
  let graph := loss_at st d in
  let st := emit [ZeroGrad EncoderCnn; ZeroGrad FRnn; ZeroGrad BRnn] st in
  do grads <- loss_backward l graph (weights st);
  let st := emit [Backward (all_loss l)] st in
  let grads := clip_grad_norm grads in
  let st := emit [ClipGradNorm] st in
  let '(w, o) := optimizer_step (opt st) (sched_steps st) (weights st) grads in
  let st := emit [OptimizerStep] (set_weights w o st) in
  let total := radd (total_loss loc) (all_loss l) in
  let st :=
    if (n mod log_step =? 0)%nat
    then emit [LogInfo (StepLog epoch epochs n (f_loss l) (b_loss l) (all_loss l))] st
    else st in
  Ok (st, {| total_loss := total; batch_num := Some n |}).

(** One iteration of the loop at line 199. *)
Definition valid_batch (acc : state * locals) (item : nat * input_data)
  : result (state * locals) :=
  let '(st, loc) := acc in
  let '(n, d) := item in
  do l <- valid_forward st d;
  let total := radd (total_loss loc) (all_loss l) in
  Ok (st, {| total_loss := total; batch_num := Some n |}).

(** [enumerate(loader, 1)] *)
Definition enumerate1 {A : Type} (l : list A) : list (nat * A) :=
  zip (seq 1 (length l)) l.

(** The checkpoint files: one per model, named by the comment alone. *)
Definition f_rnn_path : string := "f_rnn" +:+ comment +:+ ".pth".
Definition b_rnn_path : string := "b_rnn" +:+ comment +:+ ".pth".
Definition encoder_cnn_path : string := "encoder_cnn" +:+ comment +:+ ".pth".

(** Lines 105-192. *)
Definition train_phase (epoch : nat) (acc : state * option nat)
  : result (state * option nat) :=
  let '(st, bn) := acc in
  let st := scheduler_step st in
  let st := set_train true st in
  do '(st, loc) <- for_each (train_batch epoch) (enumerate1 (train_loader epoch))
                     (st, {| total_loss := rzero; batch_num := bn |});
  match batch_num loc with
  | None => Raise UnboundLocal
  | Some n =>
      let st := emit [LogInfo (TrainLoss epoch (total_loss loc) n)] st in
      let st := save FRnn (f_w st) f_rnn_path st in
      let st := save BRnn (b_w st) b_rnn_path st in
      let st := save EncoderCnn (cnn_w st) encoder_cnn_path st in
      Ok (st, batch_num loc)
  end.

(** Lines 194-252. *)
Definition valid_phase (epoch : nat) (acc : state * option nat)
  : result (state * option nat) :=
  let '(st, bn) := acc in
  let st := set_train false st in
  do '(st, loc) <- for_each valid_batch (enumerate1 (val_loader epoch))
                     (st, {| total_loss := rzero; batch_num := bn |});
  match batch_num loc with
  | None => Raise UnboundLocal
  | Some n =>
      let st := emit [LogInfo (ValidLoss epoch (total_loss loc) n)] st in
      Ok (st, batch_num loc)
  end.

Definition epoch_body (acc : state * option nat) (epoch : nat)
  : result (state * option nat) :=
  do acc <- train_phase epoch acc;
  valid_phase epoch acc.

(** [for epoch in range(1, epochs + 1)] *)
Definition train (st : state) : result (state * option nat) :=
  for_each epoch_body (seq 1 (Z.to_nat epochs)) (st, None).

(** ** Events by kind, for the statements below *)

(** The events of one optimisation step and its log line. *)
Definition step_event (ev : event) : Prop :=
  match ev with
  | ZeroGrad _ | Backward _ | ClipGradNorm | OptimizerStep | LogInfo _ => True
  | SchedulerStep | SetTrain _ _ | Save _ _ => False
  end.

(** What one iteration of the training loop appends to the trace. *)
Definition step_events (epoch n : nat) (l : losses) : list event :=
  [ZeroGrad EncoderCnn; ZeroGrad FRnn; ZeroGrad BRnn;
   Backward (radd (f_loss l) (b_loss l)); ClipGradNorm; OptimizerStep]
  ++ (if (n mod log_step =? 0)%nat
      then [LogInfo (StepLog epoch epochs n (f_loss l) (b_loss l) (all_loss l))]
      else []).

(** A result as [torch.no_grad()] leaves it: the same numbers, no graph. *)
Definition no_grad (l : losses) : losses :=
  {| f_score := f_score l; b_score := b_score l;
     f_loss := f_loss l; b_loss := b_loss l; all_loss := all_loss l;
     requires_grad := false |}.

(** The lines that [logger.info] has sent to the log file and the stream. *)
Definition log_lines (tr : list event) : list log_record :=
  omap (fun ev => match ev with LogInfo r => Some r | _ => None end) tr.

(** One optimisation step, from [s] to [s'], on the batch numbered [n]: the
    forward pass at [s], the events of the step, and the parameters moved by
    the optimizer along the clipped gradient of the batch's loss. *)
Definition one_step (epoch : nat) (s : state) (item : nat * input_data)
    (s' : state) : Prop :=
  exists l,
    train_forward s item.2 = Ok l /\
    trace s' = trace s ++ step_events epoch item.1 l /\
    (weights s', opt s')
    = optimizer_step (opt s) (sched_steps s) (weights s)
        (clip_grad_norm (backward (loss_at s item.2) (weights s))).

(** Steps taken one after the other, one for each item. *)
Fixpoint chain {A : Type} (step : state -> A -> state -> Prop) (items : list A)
    (s s' : state) : Prop :=
  match items with
  | [] => s' = s
  | x :: rest => exists s1, step s x s1 /\ chain step rest s1 s'
  end.

End Training.

(** ** A small instance

    Rows, images, weights and losses are integers.  The image encoder returns
    the images as embeddings, and the two sequence models return the valid
    rows of their input, packed. *)

Module Demo.

Definition encoder_cnn (w : Z) (training : bool) (images : list Z) : list Z :=
  images.

(** Modelled from the spec: [LSTMModel] of [model.py], which is not among the
    sources.  As section 4.2 has it, the model takes a padded batch and the
    valid lengths and returns one row per valid time step, in packed order;
    the recurrent cell is left out, so the rows are those of the input. *)
Definition lstm_model (w : Z) (training : bool) (input : list (list Z))
    (lengths : list Z) : result (list Z) :=
  pack_padded_sequence input lengths.

(** A weighted sum of the scores off the labelled column stands in for the
    cross entropy. *)
Definition cross_entropy (scores : list (list Z)) (labels : list nat) : Z :=
  foldr Z.add 0
    (zip_with (fun row c => Z.of_nat (S c) * (foldr Z.add 0 row - nth c row 0))
       scores labels).

(** The value of the loss at the weights stands in for its gradient. *)
Definition backward (graph : Z * Z * Z -> result Z) (w : Z * Z * Z) : Z :=
  match graph w with Ok v => v | Raise _ => 0 end.

Definition clip_grad_norm (g : Z) : Z := Z.min g 1.

Definition optimizer_step (o : Z) (sched : nat) (w : Z * Z * Z) (g : Z)
  : Z * Z * Z * Z :=
  ((w.1.1 - g, w.1.2 - g, w.2 - g), o + g).

Definition outfits : input_data :=
  {| lengths := [4; 3]; images := [10; 11; 12; 13; 20; 21; 22] |}.

Definition one_outfit : input_data :=
  {| lengths := [3]; images := [1; 2; 3] |}.

Definition loader (epoch : nat) : list (@input_data Z) := [outfits].

Definition st0 : @state Z Z Z :=
  {| cnn_w := 100; f_w := 200; b_w := 300;
     cnn_training := false; f_training := false; b_training := false;
     opt := 0; sched_steps := 0;
     checkpoints := {[ "f_rnn_run1.pth" := 7 ]};
     trace := [] |}.

Definition loc0 : @locals Z := {| total_loss := 0; batch_num := None |}.

Definition forward :=
  train_forward (O:=Z) 0 encoder_cnn lstm_model Z.mul cross_entropy Z.add.

Definition step :=
  train_batch 0 encoder_cnn lstm_model Z.mul cross_entropy Z.add
    backward clip_grad_norm optimizer_step 1.

Definition validate :=
  valid_phase (O:=Z) 0 encoder_cnn lstm_model Z.mul cross_entropy Z.add 0 loader.

Definition epoch :=
  epoch_body 0 encoder_cnn lstm_model Z.mul cross_entropy Z.add 0
    backward clip_grad_norm optimizer_step 1 "_run1" loader loader.

Definition get {A : Type} (r : result A) (a : A) : A :=
  match r with Ok x => x | Raise _ => a end.

Definition losses0 : @losses Z Z :=
  {| f_score := []; b_score := []; f_loss := 0; b_loss := 0; all_loss := 0;
     requires_grad := false |}.

Definition after_forward : @losses Z Z := get (forward st0 outfits) losses0.
Definition after_step : state * locals := get (step 1%nat (st0, loc0) (1%nat, outfits)) (st0, loc0).
Definition after_epoch : state * option nat := get (epoch (st0, None) 1%nat) (st0, None).
Definition after_validate : state * option nat :=
  get (validate 1%nat (after_epoch.1, None)) (st0, None).

End Demo.

(** The order of events that would put the advance of the schedule behind
    the optimisation steps. *)
Definition advance_after_steps {R : Type} (tr : list (@event R)) : Prop :=
  forall i j : nat,
    tr !! i = Some SchedulerStep -> tr !! j = Some OptimizerStep -> (j < i)%nat.

(** ** The log file (line 81) *)

(** [s.split(".")[0]]: what stands before the first dot. *)
Fixpoint before_dot (s : string) : string :=
  match s with
  | EmptyString => EmptyString
  | String c rest =>
      if Ascii.eqb c "."%char then EmptyString else String c (before_dot rest)
  end.

(** ["log_{}{}.log".format(__file__.split(".")[0], comment)] *)
Definition log_file_name (file comment : string) : string :=
  "log_" +:+ before_dot file +:+ comment +:+ ".log".

(** ** Counting and relating, for the statements below *)

Definition is_optimizer_step {R : Type} (ev : @event R) : bool :=
  match ev with OptimizerStep => true | _ => false end.

Definition is_backward {R : Type} (ev : @event R) : bool :=
  match ev with Backward _ => true | _ => false end.

Definition is_step_log {R : Type} (ev : @event R) : bool :=
  match ev with LogInfo (StepLog _ _ _ _ _ _) => true | _ => false end.

Definition count_events {R : Type} (p : @event R -> bool) (tr : list (@event R)) : nat :=
  length (List.filter p tr).

(** Two rows that stand one behind the other in the embeddings. *)
Definition consecutive {E : Type} (emb : list E) (x y : E) : Prop :=
  exists j : nat, emb !! j = Some x /\ emb !! S j = Some y.

(** The largest of a list of lengths. *)
Definition max_length (lengths : list Z) : Z := foldr Z.max 0 lengths.

(** ** Runs of the instance *)

Module Runs.

Definition no_loader (epoch : nat) : list (@input_data Z) := [].

Definition long_loader (epoch : nat) : list (@input_data Z) :=
  replicate 50 Demo.one_outfit.

Definition unsorted : input_data :=
  {| lengths := [2; 3]; images := [1; 2; 3; 4; 5] |}.

Definition unsorted_loader (epoch : nat) : list (@input_data Z) := [unsorted].

Abbreviation epoch_with :=
  (epoch_body 0 Demo.encoder_cnn Demo.lstm_model Z.mul Demo.cross_entropy Z.add 0
     Demo.backward Demo.clip_grad_norm Demo.optimizer_step 1 "_run1").

Abbreviation run_with epochs :=
  (train 0 Demo.encoder_cnn Demo.lstm_model Z.mul Demo.cross_entropy Z.add 0
     Demo.backward Demo.clip_grad_norm Demo.optimizer_step epochs "_run1").

Definition after_long_epoch : state * option nat :=
  Demo.get (epoch_with long_loader Demo.loader (Demo.st0, None) 1%nat) (Demo.st0, None).

Definition after_unvalidated_epoch : state * option nat :=
  Demo.get (epoch_with long_loader no_loader (Demo.st0, None) 1%nat) (Demo.st0, None).

Definition after_two_epochs : state * option nat :=
  Demo.get (run_with 2 Demo.loader Demo.loader Demo.st0) (Demo.st0, None).

End Runs.

(** * Properties *)

(** ** Slicing *)

Lemma slice_bound_nonneg (n i : Z) :
  0 <= n -> 0 <= i -> slice_bound n i = Z.min n i.
Proof.
  intros Hn Hi. unfold slice_bound.
  destruct (Z.ltb_spec i 0); lia.
Qed.

(** With bounds that are not negative a slice is a shifted prefix, cut off
    where the rows end. *)
Lemma py_slice_nonneg {A : Type} (t : list A) (lo hi : Z) :
  0 <= lo -> 0 <= hi ->
  py_slice t lo hi = take (Z.to_nat (hi - lo)) (drop (Z.to_nat lo) t).
Proof.
  intros Hlo Hhi. unfold py_slice.
  rewrite !slice_bound_nonneg by lia.
  apply list_eq. intros k.
  destruct (decide (Z.of_nat k < Z.min (Z.of_nat (length t)) hi
                                 - Z.min (Z.of_nat (length t)) lo)) as [Hk|Hk].
  - rewrite !lookup_take_lt by lia. rewrite !lookup_drop. f_equal. lia.
  - rewrite lookup_take_ge by lia.
    destruct (decide (Z.of_nat k < hi - lo)) as [Hk'|Hk'].
    + rewrite lookup_take_lt by lia. rewrite lookup_drop.
      symmetry. apply lookup_ge_None. lia.
    + rewrite lookup_take_ge by lia. reflexivity.
Qed.



Lemma py_slice_lookup {A : Type} (t : list A) (lo hi : Z) (k : nat) :
  0 <= lo -> lo <= hi -> hi <= Z.of_nat (length t) ->
  Z.of_nat k < hi - lo ->
  py_slice t lo hi !! k = t !! Z.to_nat (lo + Z.of_nat k).
Proof.
  intros Hlo Hhi Hn Hk. rewrite py_slice_nonneg by lia.
  rewrite lookup_take_lt by lia. rewrite lookup_drop. f_equal. lia.
Qed.

Lemma py_slice_length {A : Type} (t : list A) (lo hi : Z) :
  0 <= lo -> lo <= hi -> hi <= Z.of_nat (length t) ->
  Z.of_nat (length (py_slice t lo hi)) = hi - lo.
Proof.
  intros Hlo Hhi Hn. rewrite py_slice_nonneg by lia.
  rewrite length_take, length_drop. lia.
Qed.

(** ** The running offset *)

Lemma offset_0 (lengths : list Z) : offset lengths 0 = 0.
Proof. reflexivity. Qed.

Lemma offset_S (L : Z) (lengths : list Z) (i : nat) :
  offset (L :: lengths) (S i) = L + offset lengths i.
Proof. reflexivity. Qed.

Lemma offset_nonneg (lengths : list Z) (i : nat) :
  Forall (fun L => 0 <= L) lengths -> 0 <= offset lengths i.
Proof.
  intros H. revert i. induction H as [|L l HL _ IH]; intros [|i];
    rewrite ?offset_0, ?offset_S; unfold offset; simpl; try lia.
  specialize (IH i). unfold offset in IH. lia.
Qed.

Lemma offset_all (lengths : list Z) :
  offset lengths (length lengths) = foldr Z.add 0 lengths.
Proof. unfold offset. rewrite firstn_all. reflexivity. Qed.

(** An outfit ends where the next one begins, and the last one ends at the
    sum of all lengths. *)
Lemma offset_end (lengths : list Z) (i : nat) (L : Z) :
  Forall (fun L => 0 <= L) lengths ->
  lengths !! i = Some L ->
  offset lengths i + L <= foldr Z.add 0 lengths.
Proof.
  intros H. revert i. induction H as [|L' l HL' Hl IH]; intros [|i] Hi;
    simplify_eq/=.
  - assert (0 <= foldr Z.add 0 l).
    { clear -Hl. induction Hl; simpl; lia. }
    unfold offset. simpl. lia.
  - rewrite offset_S. specialize (IH i Hi). lia.
Qed.

Section BuilderFacts.

Context {E : Type}.
Variable zero : E.
Implicit Types (emb : list E) (lengths : list Z) (seqs : list (list E)).

Lemma input_emb_loop_from emb lengths (s : Z) (acc : list (list E)) :
  fold_left
    (fun '(start, input_emb_list) length =>
       (start + length,
        input_emb_list ++ [py_slice emb start (start + length - 1)]))
    lengths (s, acc)
  = (s + foldr Z.add 0 lengths,
     acc ++ imap (fun i L => py_slice emb (s + offset lengths i)
                               (s + offset lengths i + L - 1)) lengths).
Proof.
  revert s acc. induction lengths as [|L l IH]; intros s acc; simpl.
  - rewrite Z.add_0_r, app_nil_r. reflexivity.
  - rewrite IH. f_equal; [lia|].
    rewrite <- app_assoc. simpl. rewrite offset_0, Z.add_0_r. do 2 f_equal.
    apply imap_ext. intros i x _. simpl. rewrite offset_S.
    f_equal; lia.
Qed.

Lemma target_emb_loop_from emb lengths (s : Z) (acc : list (list E)) :
  fold_left
    (fun '(start, target_emb_list) length =>
       (start + length,
        target_emb_list ++ [py_slice emb (start + 1) (start + length)]))
    lengths (s, acc)
  = (s + foldr Z.add 0 lengths,
     acc ++ imap (fun i L => py_slice emb (s + offset lengths i + 1)
                               (s + offset lengths i + L)) lengths).
Proof.
  revert s acc. induction lengths as [|L l IH]; intros s acc; simpl.
  - rewrite Z.add_0_r, app_nil_r. reflexivity.
  - rewrite IH. f_equal; [lia|].
    rewrite <- app_assoc. simpl. rewrite offset_0, Z.add_0_r. do 2 f_equal.
    apply imap_ext. intros i x _. simpl. rewrite offset_S.
    f_equal; lia.
Qed.

(** What the two loops leave in their lists. *)
Lemma input_emb_list_eq emb lengths :
  snd (input_emb_loop emb lengths)
  = imap (fun i L => py_slice emb (offset lengths i) (offset lengths i + L - 1))
      lengths.
Proof.
  unfold input_emb_loop. rewrite input_emb_loop_from. simpl.
  apply imap_ext. intros i x _. simpl. f_equal; lia.
Qed.

Lemma target_emb_list_eq emb lengths :
  snd (target_emb_loop emb lengths)
  = imap (fun i L => py_slice emb (offset lengths i + 1) (offset lengths i + L))
      lengths.
Proof.
  unfold target_emb_loop. rewrite target_emb_loop_from. simpl.
  apply imap_ext. intros i x _. simpl. f_equal; lia.
Qed.

Lemma input_emb_list_lookup emb lengths (i : nat) (L : Z) :
  lengths !! i = Some L ->
  snd (input_emb_loop emb lengths) !! i
  = Some (py_slice emb (offset lengths i) (offset lengths i + L - 1)).
Proof.
  intros Hi. rewrite input_emb_list_eq, list_lookup_imap, Hi. reflexivity.
Qed.

Lemma target_emb_list_lookup emb lengths (i : nat) (L : Z) :
  lengths !! i = Some L ->
  snd (target_emb_loop emb lengths) !! i
  = Some (py_slice emb (offset lengths i + 1) (offset lengths i + L)).
Proof.
  intros Hi. rewrite target_emb_list_eq, list_lookup_imap, Hi. reflexivity.
Qed.

Lemma input_emb_list_length emb lengths :
  length (snd (input_emb_loop emb lengths)) = length lengths.
Proof. rewrite input_emb_list_eq. apply length_imap. Qed.

Lemma target_emb_list_length emb lengths :
  length (snd (target_emb_loop emb lengths)) = length lengths.
Proof. rewrite target_emb_list_eq. apply length_imap. Qed.

(** ** Padding *)

Lemma pad_sequence_ok seqs :
  seqs <> [] ->
  pad_sequence zero seqs
  = Ok (map (fun s => s ++ replicate (max_list (length <$> seqs) - length s)%nat zero)
          seqs).
Proof. destruct seqs; [congruence | reflexivity]. Qed.

Lemma pad_batch_ok emb lengths :
  lengths <> [] ->
  exists p, pad_batch zero emb lengths = Ok p /\
    f_input_pad p
    = map (fun s => s ++ replicate
             (max_list (length <$> snd (input_emb_loop emb lengths)) - length s)%nat zero)
        (snd (input_emb_loop emb lengths)) /\
    b_target_pad p
    = map (fun s => s ++ replicate
             (max_list (length <$> map (flip_tensor zero) (snd (input_emb_loop emb lengths)))
              - length s)%nat zero)
        (map (flip_tensor zero) (snd (input_emb_loop emb lengths))) /\
    f_target_pad p
    = map (fun s => s ++ replicate
             (max_list (length <$> snd (target_emb_loop emb lengths)) - length s)%nat zero)
        (snd (target_emb_loop emb lengths)) /\
    b_input_pad p
    = map (fun s => s ++ replicate
             (max_list (length <$> map (flip_tensor zero) (snd (target_emb_loop emb lengths)))
              - length s)%nat zero)
        (map (flip_tensor zero) (snd (target_emb_loop emb lengths))).
Proof.
  intros Hne.
  assert (Hi : snd (input_emb_loop emb lengths) <> []).
  { intros H. apply (f_equal length) in H.
    rewrite input_emb_list_length in H. destruct lengths; simplify_eq/=. }
  assert (Ht : snd (target_emb_loop emb lengths) <> []).
  { intros H. apply (f_equal length) in H.
    rewrite target_emb_list_length in H. destruct lengths; simplify_eq/=. }
  assert (Hm : forall l : list (list E), l <> [] -> map (flip_tensor zero) l <> []).
  { intros [|] ?; simpl; congruence. }
  unfold pad_batch.
  rewrite (pad_sequence_ok _ Hi), (pad_sequence_ok _ (Hm _ Hi)),
    (pad_sequence_ok _ Ht), (pad_sequence_ok _ (Hm _ Ht)).
  simpl. eexists. split; [reflexivity|]. simpl. auto.
Qed.

(** C1: with lengths that sum to the number of rows and are all at least
    two, outfit [i] of length [L] starts at the sum [s] of the lengths before
    it; its forward input is rows [s .. s+L-2], its forward target is rows
    [s+1 .. s+L-1], both of length [L-1], and its effective length is [L-1]. *)
Theorem forward_slices emb lengths (i : nat) (L : Z) :
  foldr Z.add 0 lengths = Z.of_nat (length emb) ->
  Forall (fun L => 2 <= L) lengths ->
  lengths !! i = Some L ->
  (exists inp tgt,
     snd (input_emb_loop emb lengths) !! i = Some inp /\
     snd (target_emb_loop emb lengths) !! i = Some tgt /\
     Z.of_nat (length inp) = L - 1 /\
     Z.of_nat (length tgt) = L - 1 /\
     forall k : nat, Z.of_nat k < L - 1 ->
       exists x y,
         emb !! Z.to_nat (offset lengths i + Z.of_nat k) = Some x /\
         emb !! Z.to_nat (offset lengths i + 1 + Z.of_nat k) = Some y /\
         inp !! k = Some x /\ tgt !! k = Some y) /\
  effective_lengths lengths !! i = Some (L - 1).
Proof.
  intros Hsum Hall Hi.
  assert (Hnn : Forall (fun L => 0 <= L) lengths).
  { eapply Forall_impl; [exact Hall|]. simpl. intros; lia. }
  pose proof (offset_nonneg lengths i Hnn) as Hs.
  pose proof (offset_end lengths i L Hnn Hi) as He.
  assert (HL : 2 <= L).
  { rewrite Forall_lookup in Hall. exact (Hall i L Hi). }
  split.
  - eexists _, _. split; [apply input_emb_list_lookup; exact Hi|].
    split; [apply target_emb_list_lookup; exact Hi|].
    split; [rewrite py_slice_length; lia|].
    split; [rewrite py_slice_length; lia|].
    intros k Hk.
    rewrite !py_slice_lookup by lia.
    destruct (lookup_lt_is_Some_2 emb (Z.to_nat (offset lengths i + Z.of_nat k)))
      as [x Hx]; [lia|].
    destruct (lookup_lt_is_Some_2 emb (Z.to_nat (offset lengths i + 1 + Z.of_nat k)))
      as [y Hy]; [lia|].
    exists x, y. auto.
  - unfold effective_lengths. rewrite list_lookup_fmap, Hi. reflexivity.
Qed.

(** ** Flipping *)

Lemma range_down_lt (n i : nat) : In i (range_down n) -> (i < n)%nat.
Proof.
  induction n as [|n IH]; simpl; [tauto|].
  intros [<-|H]; [lia|]. specialize (IH H). lia.
Qed.

Lemma flip_tensor_reverse (t : list E) : flip_tensor zero t = reverse t.
Proof.
  unfold flip_tensor, index_select.
  induction t as [|x t IH] using rev_ind; [reflexivity|].
  rewrite length_app, Nat.add_1_r, reverse_snoc. simpl.
  rewrite app_nth2, Nat.sub_diag by lia. simpl. f_equal.
  rewrite <- IH. apply map_ext_in. intros i Hi.
  apply app_nth1, range_down_lt, Hi.
Qed.

Lemma flip_tensor_length (t : list E) : length (flip_tensor zero t) = length t.
Proof. rewrite flip_tensor_reverse. apply length_reverse. Qed.

Lemma flipped_lengths seqs :
  length <$> map (flip_tensor zero) seqs = length <$> seqs.
Proof.
  induction seqs as [|s l IH]; [reflexivity|].
  simpl. rewrite flip_tensor_length. f_equal. exact IH.
Qed.

(** C3: in the padded tensors the backward target row of every outfit is its
    forward input reversed and the backward input row is its forward target
    reversed; the rows are reversed first and padded after, so the zero rows
    stand behind the reversed garments. *)
Theorem backward_rows_reverse_forward emb lengths (i : nat) (L : Z) :
  lengths !! i = Some L ->
  exists p inp tgt,
    pad_batch zero emb lengths = Ok p /\
    snd (input_emb_loop emb lengths) !! i = Some inp /\
    snd (target_emb_loop emb lengths) !! i = Some tgt /\
    let Ti := max_list (length <$> snd (input_emb_loop emb lengths)) in
    let Tt := max_list (length <$> snd (target_emb_loop emb lengths)) in
    f_input_pad p !! i = Some (inp ++ replicate (Ti - length inp)%nat zero) /\
    b_target_pad p !! i = Some (reverse inp ++ replicate (Ti - length inp)%nat zero) /\
    f_target_pad p !! i = Some (tgt ++ replicate (Tt - length tgt)%nat zero) /\
    b_input_pad p !! i = Some (reverse tgt ++ replicate (Tt - length tgt)%nat zero).
Proof.
  intros Hi.
  assert (Hne : lengths <> []) by (intros ->; discriminate).
  destruct (pad_batch_ok emb lengths Hne) as (p & Hp & Hfi & Hbt & Hft & Hbi).
  exists p. eexists _, _. split; [exact Hp|].
  split; [apply input_emb_list_lookup; exact Hi|].
  split; [apply target_emb_list_lookup; exact Hi|].
  rewrite Hfi, Hbt, Hft, Hbi. rewrite !flipped_lengths.
  rewrite !list_lookup_fmap.
  rewrite (input_emb_list_lookup _ _ _ _ Hi), (target_emb_list_lookup _ _ _ _ Hi).
  simpl. rewrite !flip_tensor_length, !flip_tensor_reverse. auto.
Qed.

(** ** Compaction *)

Lemma pad_to_length (m : nat) (s : list E) :
  (length s <= m)%nat -> length (pad_to zero m s) = m.
Proof. intros H. unfold pad_to. rewrite length_app, length_replicate. lia. Qed.

Lemma column_cons (s : list E) seqs (t : nat) :
  column (s :: seqs) t = option_list (s !! t) ++ column seqs t.
Proof. reflexivity. Qed.

Lemma column_short seqs (t : nat) :
  Forall (fun s => len s <= Z.of_nat t) seqs -> column seqs t = [].
Proof.
  induction 1 as [|s l Hs _ IH]; [reflexivity|].
  rewrite column_cons, IH, lookup_ge_None_2; [reflexivity|].
  unfold len in Hs. lia.
Qed.

Lemma batch_size_at_short (lens : list Z) (t : nat) :
  Forall (fun l => l <= Z.of_nat t) lens -> batch_size_at lens t = 0%nat.
Proof.
  unfold batch_size_at. induction 1 as [|l ls Hl _ IH]; [reflexivity|].
  rewrite filter_cons_False by lia. exact IH.
Qed.

(** At every time step the sequences still running are a prefix of a batch
    in decreasing order of length, so cutting the padded column to their
    number leaves their rows and drops the padding. *)
Lemma packed_column seqs (m t : nat) :
  Sorted Z.ge (len <$> seqs) ->
  Forall (fun s => (length s <= m)%nat) seqs ->
  (t < m)%nat ->
  take (batch_size_at (len <$> seqs) t) (column (map (pad_to zero m) seqs) t)
  = column seqs t.
Proof.
  intros Hsort Hm Ht. induction seqs as [|s l IH]; [reflexivity|].
  apply Forall_cons in Hm as [Hs Hl].
  assert (Hext : Forall (Z.ge (len s)) (len <$> l)).
  { apply Sorted_extends; [|exact Hsort]. intros x y z. lia. }
  apply Sorted_inv in Hsort as [Hsort _].
  simpl map. rewrite !column_cons. unfold batch_size_at. rewrite fmap_cons.
  destruct (decide (t < length s)%nat) as [Hlt|Hge].
  - rewrite filter_cons_True by (unfold len; lia).
    unfold pad_to at 1. rewrite lookup_app_l by lia.
    destruct (lookup_lt_is_Some_2 s t Hlt) as [x ->]. simpl.
    f_equal. apply IH; assumption.
  - rewrite filter_cons_False by (unfold len; lia).
    assert (Hshort : Forall (fun s' => len s' <= Z.of_nat t) l).
    { rewrite Forall_fmap in Hext. eapply Forall_impl; [exact Hext|].
      simpl. unfold len. intros; lia. }
    fold (batch_size_at (len <$> l) t).
    rewrite batch_size_at_short by (rewrite Forall_fmap; exact Hshort).
    rewrite (lookup_ge_None_2 s) by lia.
    rewrite (column_short l t Hshort). reflexivity.
Qed.

Lemma max_list_bound (l : list nat) : Forall (fun n => (n <= max_list l)%nat) l.
Proof.
  induction l as [|n l IH]; constructor; simpl; [lia|].
  eapply Forall_impl; [exact IH|]. simpl. intros; lia.
Qed.

Lemma flat_map_ext_in {A B : Type} (f g : A -> list B) (l : list A) :
  (forall a, In a l -> f a = g a) -> flat_map f l = flat_map g l.
Proof.
  intros H. rewrite !flat_map_concat_map. f_equal. apply map_ext_in, H.
Qed.

(** Padding a batch in decreasing order of positive lengths and packing it
    again yields its rows in time-major order. *)
Lemma pack_pad seqs (lens : list Z) :
  seqs <> [] ->
  lens = len <$> seqs ->
  Sorted Z.ge lens ->
  Forall (fun l => 0 < l) lens ->
  pack_padded_sequence (map (pad_to zero (max_list (length <$> seqs))) seqs) lens
  = Ok (time_major seqs).
Proof.
  intros Hne -> Hsort Hpos.
  set (m := max_list (length <$> seqs)).
  assert (Hm : Forall (fun s => (length s <= m)%nat) seqs).
  { pose proof (max_list_bound (length <$> seqs)) as H.
    rewrite Forall_fmap in H. exact H. }
  assert (Hw : padded_width (map (pad_to zero m) seqs) = m).
  { destruct seqs as [|s l]; [congruence|]. simpl.
    apply pad_to_length. apply Forall_cons in Hm as [? _]. assumption. }
  assert (Hm0 : (0 < m)%nat).
  { destruct seqs as [|s l]; [congruence|].
    apply Forall_cons in Hpos as [Hs _]. apply Forall_cons in Hm as [Hs' _].
    unfold len in Hs. lia. }
  unfold pack_padded_sequence. rewrite Hw, length_map.
  rewrite bool_decide_eq_false_2.
  2:{ destruct seqs; [congruence|]. simpl. lia. }
  rewrite (bool_decide_eq_true_2 (length (len <$> seqs) = length seqs))
    by apply length_fmap.
  simpl negb. cbv iota.
  rewrite bool_decide_eq_false_2.
  2:{ destruct (last (len <$> seqs)) as [x|] eqn:Hlast; simpl.
      - apply last_Some_elem_of in Hlast.
        rewrite Forall_forall in Hpos. specialize (Hpos x Hlast). lia.
      - apply last_None in Hlast. destruct seqs; [congruence|discriminate]. }
  unfold sorted_decreasing. rewrite bool_decide_eq_true_2 by exact Hsort.
  simpl negb. cbv iota. f_equal. unfold time_major. fold m.
  apply flat_map_ext_in. intros t Ht. apply in_seq in Ht.
  apply packed_column; [assumption|assumption|lia].
Qed.

(** ** Time-major and row-major order *)

Lemma column_S seqs (t : nat) : column seqs (S t) = column (tail <$> seqs) t.
Proof.
  induction seqs as [|s l IH]; [reflexivity|].
  rewrite fmap_cons, !column_cons, IH, lookup_tail. reflexivity.
Qed.

Lemma row_major_peel seqs :
  row_major seqs ≡ₚ column seqs 0 ++ row_major (tail <$> seqs).
Proof.
  unfold row_major. induction seqs as [|s l IH]; [reflexivity|].
  rewrite fmap_cons, column_cons. simpl concat. rewrite IH.
  destruct s as [|x s]; simpl.
  - reflexivity.
  - constructor. apply Permutation_app_swap_app.
Qed.

Lemma steps_permutation (n : nat) seqs :
  Forall (fun s => (length s <= n)%nat) seqs ->
  flat_map (column seqs) (seq 0 n) ≡ₚ row_major seqs.
Proof.
  revert seqs. induction n as [|n IH]; intros seqs Hn.
  - simpl. unfold row_major.
    induction Hn as [|s l Hs _ IHl]; [reflexivity|].
    destruct s; simpl in *; [exact IHl | lia].
  - rewrite row_major_peel. simpl. apply Permutation_app_head.
    rewrite <- seq_shift, flat_map_concat_map, map_map.
    rewrite (map_ext (fun t => column seqs (S t)) (column (tail <$> seqs))
               (column_S seqs)).
    rewrite <- flat_map_concat_map. apply IH.
    rewrite Forall_fmap. eapply Forall_impl; [exact Hn|].
    intros [|x s]; simpl; lia.
Qed.

(** Time-major order holds the same rows as row-major order, rearranged. *)
Lemma time_major_permutation seqs : time_major seqs ≡ₚ row_major seqs.
Proof.
  apply steps_permutation.
  pose proof (max_list_bound (length <$> seqs)) as H.
  rewrite Forall_fmap in H. exact H.
Qed.

Lemma row_major_length seqs :
  Z.of_nat (length (row_major seqs)) = foldr Z.add 0 (len <$> seqs).
Proof.
  unfold row_major. induction seqs as [|s l IH]; [reflexivity|].
  rewrite fmap_cons. simpl concat. simpl foldr.
  rewrite length_app, <- IH. unfold len. lia.
Qed.

Lemma time_major_length seqs :
  Z.of_nat (length (time_major seqs)) = foldr Z.add 0 (len <$> seqs).
Proof.
  rewrite (Permutation_length (time_major_permutation seqs)).
  apply row_major_length.
Qed.

(** ** Well-formed batches *)

Lemma outfit_bounds emb lengths (i : nat) (L : Z) :
  foldr Z.add 0 lengths = Z.of_nat (length emb) ->
  Forall (fun L => 2 <= L) lengths ->
  lengths !! i = Some L ->
  0 <= offset lengths i /\ offset lengths i + L <= Z.of_nat (length emb) /\ 2 <= L.
Proof.
  intros Hsum Hall Hi.
  assert (Hnn : Forall (fun L => 0 <= L) lengths).
  { eapply Forall_impl; [exact Hall|]. simpl. intros; lia. }
  pose proof (offset_nonneg lengths i Hnn).
  pose proof (offset_end lengths i L Hnn Hi).
  rewrite Forall_lookup in Hall. specialize (Hall i L Hi). lia.
Qed.

Lemma target_lens emb lengths :
  foldr Z.add 0 lengths = Z.of_nat (length emb) ->
  Forall (fun L => 2 <= L) lengths ->
  len <$> snd (target_emb_loop emb lengths) = effective_lengths lengths.
Proof.
  intros Hsum Hall. apply list_eq. intros i.
  unfold effective_lengths.
  rewrite target_emb_list_eq, !list_lookup_fmap, list_lookup_imap.
  destruct (lengths !! i) as [L|] eqn:Hi; [|reflexivity]. simpl.
  destruct (outfit_bounds emb lengths i L Hsum Hall Hi) as (? & ? & ?).
  unfold len. rewrite py_slice_length by lia. f_equal. lia.
Qed.

Lemma input_lens emb lengths :
  foldr Z.add 0 lengths = Z.of_nat (length emb) ->
  Forall (fun L => 2 <= L) lengths ->
  len <$> snd (input_emb_loop emb lengths) = effective_lengths lengths.
Proof.
  intros Hsum Hall. apply list_eq. intros i.
  unfold effective_lengths.
  rewrite input_emb_list_eq, !list_lookup_fmap, list_lookup_imap.
  destruct (lengths !! i) as [L|] eqn:Hi; [|reflexivity]. simpl.
  destruct (outfit_bounds emb lengths i L Hsum Hall Hi) as (? & ? & ?).
  unfold len. rewrite py_slice_length by lia. f_equal. lia.
Qed.

Lemma flipped_lens seqs : len <$> map (flip_tensor zero) seqs = len <$> seqs.
Proof.
  induction seqs as [|s l IH]; [reflexivity|].
  simpl. unfold len at 1 3. rewrite flip_tensor_length. f_equal. exact IH.
Qed.

Lemma flipped_reverse seqs : map (flip_tensor zero) seqs = reverse <$> seqs.
Proof. apply map_ext, flip_tensor_reverse. Qed.

(** A well-formed batch in decreasing order of length is built without an
    error, and both compacted target tensors are in time-major order. *)
Lemma build_batch_ok emb lengths :
  lengths <> [] ->
  foldr Z.add 0 lengths = Z.of_nat (length emb) ->
  Forall (fun L => 2 <= L) lengths ->
  Sorted Z.ge (effective_lengths lengths) ->
  exists p,
    pad_batch zero emb lengths = Ok p /\
    build_batch zero emb lengths
    = Ok {| f_input_embs := f_input_pad p;
            b_input_embs := b_input_pad p;
            f_target_embs := time_major (snd (target_emb_loop emb lengths));
            b_target_embs := time_major (reverse <$> snd (input_emb_loop emb lengths));
            seq_lengths := effective_lengths lengths |}.
Proof.
  intros Hne Hsum Hall Hsort.
  destruct (pad_batch_ok emb lengths Hne) as (p & Hp & _ & Hbt & Hft & _).
  exists p. split; [exact Hp|].
  assert (Hpos : Forall (fun l => 0 < l) (effective_lengths lengths)).
  { unfold effective_lengths. rewrite Forall_fmap.
    eapply Forall_impl; [exact Hall|]. simpl. intros; lia. }
  assert (Hine : snd (input_emb_loop emb lengths) <> []).
  { intros H. apply (f_equal length) in H.
    rewrite input_emb_list_length in H. destruct lengths; simplify_eq/=. }
  assert (Htne : snd (target_emb_loop emb lengths) <> []).
  { intros H. apply (f_equal length) in H.
    rewrite target_emb_list_length in H. destruct lengths; simplify_eq/=. }
  unfold build_batch. rewrite Hp. simpl. rewrite Hft, Hbt.
  rewrite (pack_pad (snd (target_emb_loop emb lengths))); try assumption.
  2:{ symmetry. apply target_lens; assumption. }
  simpl.
  rewrite (pack_pad (map (flip_tensor zero) (snd (input_emb_loop emb lengths))));
    try assumption.
  - simpl. rewrite flipped_reverse. reflexivity.
  - destruct (snd (input_emb_loop emb lengths)); simpl; congruence.
  - rewrite flipped_lens. symmetry. apply input_lens; assumption.
Qed.

(** ** Batches that the compaction rejects *)


Lemma pack_raises_unsorted (input : list (list E)) (lens : list Z) :
  ~ Sorted Z.ge lens ->
  exists e, pack_padded_sequence input lens = Raise e.
Proof.
  intros Hns. unfold pack_padded_sequence, sorted_decreasing.
  repeat case_bool_decide; simpl; eauto. contradiction.
Qed.


(** When the compaction rejects the lengths, the builder has sliced, flipped
    and padded before the error comes up. *)
Lemma build_batch_raises emb lengths :
  lengths <> [] ->
  (forall input : list (list E),
     exists e, pack_padded_sequence input (effective_lengths lengths) = Raise e) ->
  exists p e,
    pad_batch zero emb lengths = Ok p /\
    pack_padded_sequence (f_target_pad p) (effective_lengths lengths) = Raise e /\
    build_batch zero emb lengths = Raise e.
Proof.
  intros Hne Hpack.
  destruct (pad_batch_ok emb lengths Hne) as (p & Hp & _).
  destruct (Hpack (f_target_pad p)) as [e He].
  exists p, e. split; [exact Hp|]. split; [exact He|].
  unfold build_batch. rewrite Hp. simpl. rewrite He. reflexivity.
Qed.

(** C10: the effective lengths have to arrive in decreasing order; for a
    batch where they do not, the slicing and padding go through and the
    compaction of the targets raises instead of returning the tensors. *)
Theorem unsorted_lengths_raise emb lengths :
  ~ Sorted Z.ge (effective_lengths lengths) ->
  exists p e,
    pad_batch zero emb lengths = Ok p /\
    pack_padded_sequence (f_target_pad p) (effective_lengths lengths) = Raise e /\
    build_batch zero emb lengths = Raise e.
Proof.
  intros Hns. apply build_batch_raises.
  - intros ->. apply Hns. constructor.
  - intros input. apply pack_raises_unsorted, Hns.
Qed.

(** ** Batches that the builder accepts *)








(** For a well-formed batch in decreasing order of length both compacted
    target tensors are in time-major order, hold the rows of the row-major
    order, rearranged, and have one row per valid target. *)
Lemma build_batch_time_major emb lengths :
  lengths <> [] ->
  foldr Z.add 0 lengths = Z.of_nat (length emb) ->
  Forall (fun L => 2 <= L) lengths ->
  Sorted Z.ge (effective_lengths lengths) ->
  exists b,
    build_batch zero emb lengths = Ok b /\
    f_target_embs b = time_major (snd (target_emb_loop emb lengths)) /\
    b_target_embs b = time_major (reverse <$> snd (input_emb_loop emb lengths)) /\
    f_target_embs b ≡ₚ row_major (snd (target_emb_loop emb lengths)) /\
    b_target_embs b ≡ₚ row_major (reverse <$> snd (input_emb_loop emb lengths)) /\
    Z.of_nat (length (f_target_embs b)) = foldr Z.add 0 (effective_lengths lengths) /\
    Z.of_nat (length (b_target_embs b)) = foldr Z.add 0 (effective_lengths lengths).
Proof.
  intros Hne Hsum Hall Hsort.
  destruct (build_batch_ok emb lengths Hne Hsum Hall Hsort) as (p & _ & Hb).
  eexists. split; [exact Hb|]. simpl.
  repeat apply conj; try reflexivity.
  - apply time_major_permutation.
  - apply time_major_permutation.
  - rewrite time_major_length. f_equal. apply target_lens; assumption.
  - rewrite time_major_length, <- flipped_reverse, flipped_lens.
    f_equal. apply input_lens; assumption.
Qed.

End BuilderFacts.

(** ** The training loop *)

Section TrainingFacts.

Context {E Img W G O Sc R : Type}.
Variable zero : E.
Variable encoder_cnn : W -> bool -> list Img -> list E.
Variable lstm_model : W -> bool -> list (list E) -> list Z -> result (list E).
Variable dot : E -> E -> Sc.
Variable cross_entropy : list (list Sc) -> list nat -> R.
Variable radd : R -> R -> R.
Variable rzero : R.
Variable backward : (W * W * W -> result R) -> W * W * W -> G.
Variable clip_grad_norm : G -> G.
Variable optimizer_step : O -> nat -> W * W * W -> G -> W * W * W * O.
Variable epochs : Z.
Variable comment : string.
Variable train_loader : nat -> list (@input_data Img).
Variable val_loader : nat -> list (@input_data Img).

Local Abbreviation state' := (@state W O R).
Local Abbreviation locals' := (@locals R).
Local Abbreviation losses' := (@losses Sc R).
Local Abbreviation train_forward' :=
  (train_forward zero encoder_cnn lstm_model dot cross_entropy radd).
Local Abbreviation valid_forward' :=
  (valid_forward zero encoder_cnn lstm_model dot cross_entropy radd).
Local Abbreviation loss_at' :=
  (loss_at zero encoder_cnn lstm_model dot cross_entropy radd).
Local Abbreviation train_batch' :=
  (train_batch zero encoder_cnn lstm_model dot cross_entropy radd
     backward clip_grad_norm optimizer_step epochs).
Local Abbreviation valid_batch' :=
  (valid_batch zero encoder_cnn lstm_model dot cross_entropy radd).
Local Abbreviation train_phase' :=
  (train_phase zero encoder_cnn lstm_model dot cross_entropy radd rzero
     backward clip_grad_norm optimizer_step epochs comment train_loader).
Local Abbreviation valid_phase' :=
  (valid_phase zero encoder_cnn lstm_model dot cross_entropy radd rzero val_loader).
Local Abbreviation epoch_body' :=
  (epoch_body zero encoder_cnn lstm_model dot cross_entropy radd rzero
     backward clip_grad_norm optimizer_step epochs comment train_loader val_loader).

Lemma bind_ok {A B : Type} (r : result A) (k : A -> result B) (b : B) :
  bind r k = Ok b -> exists a, r = Ok a /\ k a = Ok b.
Proof. destruct r as [a|e]; simpl; [eauto | discriminate]. Qed.

(** The validation copy of the forward computation computes what the
    training copy computes, and leaves no graph. *)
Lemma valid_forward_no_grad (st : state') (d : input_data) :
  valid_forward' st d
  = match train_forward' st d with
    | Ok l => Ok (no_grad l)
    | Raise e => Raise e
    end.
Proof.
  unfold valid_forward, train_forward.
  destruct (build_batch _ _ _) as [b|e]; [|reflexivity]. simpl.
  destruct (lstm_model (f_w st) _ _ _) as [fo|e]; [|reflexivity]. simpl.
  destruct (criterion _ (matmul_t dot fo _) _) as [fl|e]; [|reflexivity]. simpl.
  destruct (lstm_model (b_w st) _ _ _) as [bo|e]; [|reflexivity]. simpl.
  destruct (criterion _ (matmul_t dot bo _) _) as [bl|e]; reflexivity.
Qed.

(** The criterion on a similarity matrix with the labels [0, 1, ...]. *)
Lemma criterion_matmul (o t : list E) :
  criterion cross_entropy (matmul_t dot o t) (arange (length (matmul_t dot o t)))
  = if bool_decide (length o <= length t)%nat
    then Ok (cross_entropy (matmul_t dot o t) (arange (length (matmul_t dot o t))))
    else Raise TargetOutOfBounds.
Proof.
  unfold criterion. destruct (forallb _ _) eqn:Hall.
  - rewrite bool_decide_eq_true_2; [reflexivity|].
    unfold matmul_t, arange in Hall. rewrite length_map in Hall.
    destruct o as [|x o _] using rev_ind; [simpl; lia|].
    rewrite forallb_forall in Hall.
    specialize (Hall (map (dot x) t, length o)). cbv beta iota in Hall.
    rewrite length_map in Hall. rewrite length_app. simpl.
    enough ((length o <? length t)%nat = true) as Hlt
      by (apply Nat.ltb_lt in Hlt; lia).
    apply Hall.
    apply list_elem_of_In, list_elem_of_lookup. exists (length o).
    apply lookup_zip_with_Some. eexists _, _. split; [reflexivity|].
    rewrite length_app, map_app. simpl. split.
    + rewrite lookup_app_r by (rewrite length_map; lia).
      rewrite length_map, Nat.sub_diag. reflexivity.
    + rewrite lookup_seq_lt by lia. reflexivity.
  - rewrite bool_decide_eq_false_2; [reflexivity|]. intros Hle.
    apply not_true_iff_false in Hall. apply Hall. clear Hall.
    unfold matmul_t, arange. rewrite length_map.
    apply forallb_forall. intros [row c] Hin.
    apply list_elem_of_In, list_elem_of_lookup in Hin as [i Hi].
    apply lookup_zip_with_Some in Hi as (row' & c' & Heq & Hrow & Hc).
    simplify_eq. apply Nat.ltb_lt.
    apply lookup_seq in Hc as [-> Hlt]. simpl.
    rewrite list_lookup_fmap in Hrow.
    destruct (o !! i) as [x|]; simplify_eq/=.
    rewrite length_map. lia.
Qed.

Lemma matmul_t_shape (o t : list E) :
  length (matmul_t dot o t) = length o /\
  Forall (fun row => length row = length t) (matmul_t dot o t).
Proof.
  unfold matmul_t. rewrite length_map. split; [reflexivity|].
  rewrite Forall_map. apply Forall_forall. intros x _. apply length_map.
Qed.

Lemma set_weights_same (st : state') : set_weights (weights st) (opt st) st = st.
Proof. destruct st. reflexivity. Qed.

Lemma train_forward_inv (st : state') (d : input_data) (l : losses') :
  train_forward' st d = Ok l ->
  exists b f_output b_output,
    build_batch zero (encoder_cnn (cnn_w st) (cnn_training st) (images d)) (lengths d)
    = Ok b /\
    lstm_model (f_w st) (f_training st) (f_input_embs b) (seq_lengths b) = Ok f_output /\
    lstm_model (b_w st) (b_training st) (b_input_embs b) (seq_lengths b) = Ok b_output /\
    f_score l = matmul_t dot f_output (f_target_embs b) /\
    b_score l = matmul_t dot b_output (b_target_embs b) /\
    criterion cross_entropy (f_score l) (arange (length (f_score l))) = Ok (f_loss l) /\
    criterion cross_entropy (b_score l) (arange (length (b_score l))) = Ok (b_loss l) /\
    all_loss l = radd (f_loss l) (b_loss l) /\
    requires_grad l = true.
Proof.
  unfold train_forward. intros H.
  apply bind_ok in H as (b & Hb & H).
  apply bind_ok in H as (fo & Hfo & H).
  apply bind_ok in H as (fl & Hfl & H).
  apply bind_ok in H as (bo & Hbo & H).
  apply bind_ok in H as (bl & Hbl & H).
  simplify_eq/=. exists b, fo, bo. repeat apply conj; auto.
Qed.

(** The graph of the loss: at every setting of the weights, the forward loss
    plus the backward loss of the forward pass there. *)
Lemma loss_at_sum (st : state') (d : input_data) (w : W * W * W) :
  loss_at' st d w
  = match train_forward' (set_weights w (opt st) st) d with
    | Ok l => Ok (radd (f_loss l) (b_loss l))
    | Raise e => Raise e
    end.
Proof.
  unfold loss_at.
  destruct (train_forward' (set_weights w (opt st) st) d) as [l|e] eqn:Hl;
    [|reflexivity].
  apply train_forward_inv in Hl as (b & fo & bo & _ & _ & _ & _ & _ & _ & _ & Hall & _).
  simpl. rewrite Hall. reflexivity.
Qed.

Lemma train_batch_inv (epoch : nat) (st st' : state') (loc loc' : locals')
    (n : nat) (d : input_data) :
  train_batch' epoch (st, loc) (n, d) = Ok (st', loc') ->
  exists l,
    train_forward' st d = Ok l /\
    trace st' = trace st ++ step_events radd epochs epoch n l /\
    sched_steps st' = sched_steps st /\
    checkpoints st' = checkpoints st /\
    cnn_training st' = cnn_training st /\
    f_training st' = f_training st /\
    b_training st' = b_training st /\
    (weights st', opt st')
    = optimizer_step (opt st) (sched_steps st) (weights st)
        (clip_grad_norm (backward (loss_at' st d) (weights st))) /\
    total_loss loc' = radd (total_loss loc) (radd (f_loss l) (b_loss l)) /\
    batch_num loc' = Some n.
Proof.
  unfold train_batch. intros H.
  apply bind_ok in H as (l & Hl & H). exists l. split; [exact Hl|].
  apply train_forward_inv in Hl
    as (b & fo & bo & _ & _ & _ & _ & _ & _ & _ & Hall & Hgrad).
  cbv beta zeta in H. unfold loss_backward in H. rewrite Hgrad in H.
  unfold step_events. rewrite <- Hall.
  set (c := (n mod log_step =? 0)%nat) in *. clearbody c.
  set (graph := loss_at' st d) in *. clearbody graph.
  unfold weights in *. simpl in H.
  destruct (optimizer_step _ _ _ _) as [[[w1 w2] w3] o] eqn:Hopt.
  destruct c; simplify_eq/=;
    rewrite <- ?app_assoc; simpl; repeat apply conj; reflexivity.
Qed.

Lemma step_events_kind (epoch n : nat) (l : losses') :
  Forall step_event (step_events radd epochs epoch n l).
Proof.
  unfold step_events. destruct (n mod log_step =? 0)%nat;
    repeat constructor.
Qed.

(** The training loop adds optimisation steps to the trace and nothing else;
    the schedule, the checkpoints and the modes stay as they are. *)
Lemma train_loop_inv (epoch : nat) (items : list (nat * input_data))
    (st st' : state') (loc loc' : locals') :
  for_each (train_batch' epoch) items (st, loc) = Ok (st', loc') ->
  exists steps,
    trace st' = trace st ++ steps /\
    Forall step_event steps /\
    sched_steps st' = sched_steps st /\
    checkpoints st' = checkpoints st /\
    cnn_training st' = cnn_training st /\
    f_training st' = f_training st /\
    b_training st' = b_training st.
Proof.
  revert st loc. induction items as [|[n d] items IH]; intros st loc H.
  - simpl in H. simplify_eq. exists []. rewrite app_nil_r.
    repeat apply conj; auto.
  - simpl in H. apply bind_ok in H as ([st1 loc1] & H1 & H).
    apply train_batch_inv in H1
      as (l & _ & Htr & Hs & Hf & Hm1 & Hm2 & Hm3 & _).
    apply IH in H as (steps & Htr' & Hk & Hs' & Hf' & Hm1' & Hm2' & Hm3').
    exists (step_events radd epochs epoch n l ++ steps).
    rewrite Htr', Htr, app_assoc.
    repeat apply conj; try congruence.
    apply Forall_app. split; [apply step_events_kind | exact Hk].
Qed.

(** The validation loop leaves the whole state as it is. *)
Lemma valid_loop_inv (items : list (nat * input_data))
    (st st' : state') (loc loc' : locals') :
  for_each valid_batch' items (st, loc) = Ok (st', loc') -> st' = st.
Proof.
  revert st loc. induction items as [|[n d] items IH]; intros st loc H.
  - simpl in H. congruence.
  - simpl in H. apply bind_ok in H as ([st1 loc1] & H1 & H).
    unfold valid_batch in H1. apply bind_ok in H1 as (l & _ & H1).
    simplify_eq. eapply IH, H.
Qed.

(** The validation loop runs the forward pass of every batch, in order, and
    adds up the losses. *)
Lemma valid_loop_losses (items : list (nat * input_data))
    (st st' : state') (loc loc' : locals') :
  for_each valid_batch' items (st, loc) = Ok (st', loc') ->
  exists ls : list losses',
    Forall2 (fun item l => valid_forward' st item.2 = Ok l) items ls /\
    total_loss loc'
    = fold_left (fun acc l => radd acc (all_loss l)) ls (total_loss loc).
Proof.
  revert st loc. induction items as [|[n d] items IH]; intros st loc H.
  - simpl in H. simplify_eq. exists []. split; [constructor | reflexivity].
  - simpl in H. apply bind_ok in H as ([st1 loc1] & H1 & H).
    unfold valid_batch in H1. apply bind_ok in H1 as (l & Hl & H1).
    simplify_eq. apply IH in H as (ls & Hls & Htot).
    exists (l :: ls). split; [constructor; assumption|]. exact Htot.
Qed.

Lemma log_lines_app (a b : list (@event R)) :
  log_lines (a ++ b) = log_lines a ++ log_lines b.
Proof. unfold log_lines. apply omap_app. Qed.

Lemma train_phase_inv (epoch : nat) (st st' : state') (bn bn' : option nat) :
  train_phase' epoch (st, bn) = Ok (st', bn') ->
  exists steps r,
    trace st'
    = trace st
      ++ [SchedulerStep; SetTrain EncoderCnn true; SetTrain FRnn true;
          SetTrain BRnn true]
      ++ steps
      ++ [LogInfo r; Save FRnn (f_rnn_path comment); Save BRnn (b_rnn_path comment);
          Save EncoderCnn (encoder_cnn_path comment)] /\
    Forall step_event steps /\
    sched_steps st' = S (sched_steps st) /\
    checkpoints st'
    = <[encoder_cnn_path comment := cnn_w st']>
        (<[b_rnn_path comment := b_w st']>
           (<[f_rnn_path comment := f_w st']> (checkpoints st))).
Proof.
  unfold train_phase. intros H.
  apply bind_ok in H as ([st1 loc1] & Hloop & H).
  apply train_loop_inv in Hloop as (steps & Htr & Hk & Hs & Hf & _).
  destruct (batch_num loc1) as [n|]; [|discriminate].
  simplify_eq/=. exists steps. eexists. rewrite Htr, Hs, Hf. simpl.
  rewrite <- !app_assoc. simpl. repeat apply conj; auto.
Qed.

Lemma valid_phase_inv (epoch : nat) (st st' : state') (bn bn' : option nat) :
  valid_phase' epoch (st, bn) = Ok (st', bn') ->
  exists r,
    trace st'
    = trace st
      ++ [SetTrain EncoderCnn false; SetTrain FRnn false; SetTrain BRnn false;
          LogInfo r] /\
    weights st' = weights st /\
    opt st' = opt st /\
    sched_steps st' = sched_steps st /\
    checkpoints st' = checkpoints st.
Proof.
  unfold valid_phase. intros H.
  apply bind_ok in H as ([st1 loc1] & Hloop & H).
  apply valid_loop_inv in Hloop. subst st1.
  destruct (batch_num loc1) as [n|]; [|discriminate].
  simplify_eq/=. eexists. rewrite <- !app_assoc. simpl.
  repeat apply conj; reflexivity.
Qed.

Lemma checkpoint_paths_differ :
  f_rnn_path comment <> b_rnn_path comment /\
  f_rnn_path comment <> encoder_cnn_path comment /\
  b_rnn_path comment <> encoder_cnn_path comment.
Proof.
  unfold f_rnn_path, b_rnn_path, encoder_cnn_path.
  repeat split; intros H; apply (f_equal (String.get 0)) in H; discriminate H.
Qed.

(** C4: the loss of a training step is the forward loss plus the backward
    loss, each the criterion of the similarity matrix of its direction's
    outputs and compacted targets on this batch; the backward pass
    differentiates this sum, as a function of the parameters, and the
    optimizer moves the parameters along its clipped gradient; the same sum
    goes into the running total of the epoch. *)
Theorem backpropagated_loss_is_sum (epoch : nat) (st st' : state')
    (loc loc' : locals') (n : nat) (d : input_data) :
  train_batch' epoch (st, loc) (n, d) = Ok (st', loc') ->
  exists l log b f_output b_output,
    train_forward' st d = Ok l /\
    criterion cross_entropy (f_score l) (arange (length (f_score l))) = Ok (f_loss l) /\
    criterion cross_entropy (b_score l) (arange (length (b_score l))) = Ok (b_loss l) /\
    all_loss l = radd (f_loss l) (b_loss l) /\
    trace st'
    = trace st
      ++ [ZeroGrad EncoderCnn; ZeroGrad FRnn; ZeroGrad BRnn;
          Backward (radd (f_loss l) (b_loss l)); ClipGradNorm; OptimizerStep]
      ++ log /\
    Forall (fun ev => exists r, ev = LogInfo r) log /\
    total_loss loc' = radd (total_loss loc) (radd (f_loss l) (b_loss l)) /\
    build_batch zero (encoder_cnn (cnn_w st) (cnn_training st) (images d)) (lengths d)
    = Ok b /\
    lstm_model (f_w st) (f_training st) (f_input_embs b) (seq_lengths b) = Ok f_output /\
    lstm_model (b_w st) (b_training st) (b_input_embs b) (seq_lengths b) = Ok b_output /\
    f_score l = matmul_t dot f_output (f_target_embs b) /\
    b_score l = matmul_t dot b_output (b_target_embs b) /\
    f_loss l = cross_entropy (f_score l) (arange (length f_output)) /\
    b_loss l = cross_entropy (b_score l) (arange (length b_output)) /\
    loss_at' st d (weights st) = Ok (radd (f_loss l) (b_loss l)) /\
    (forall w : W * W * W,
       loss_at' st d w
       = match train_forward' (set_weights w (opt st) st) d with
         | Ok l' => Ok (radd (f_loss l') (b_loss l'))
         | Raise e => Raise e
         end) /\
    (weights st', opt st')
    = optimizer_step (opt st) (sched_steps st) (weights st)
        (clip_grad_norm (backward (loss_at' st d) (weights st))).
Proof.
  intros H.
  apply train_batch_inv in H
    as (l & Hl & Htr & _ & _ & _ & _ & _ & Hstep & Htot & _).
  pose proof (train_forward_inv _ _ _ Hl)
    as (b & fo & bo & Hb & Hfo & Hbo & Hfs & Hbs & Hf & Hb' & Hall & _).
  unfold step_events in Htr.
  exists l. eexists. exists b, fo, bo.
  assert (Hfl : f_loss l = cross_entropy (f_score l) (arange (length fo))).
  { pose proof Hf as Hf2. rewrite Hfs, criterion_matmul in Hf2.
    destruct (bool_decide _); [|discriminate].
    rewrite (proj1 (matmul_t_shape fo _)) in Hf2. rewrite Hfs. congruence. }
  assert (Hbl : b_loss l = cross_entropy (b_score l) (arange (length bo))).
  { pose proof Hb' as Hb2. rewrite Hbs, criterion_matmul in Hb2.
    destruct (bool_decide _); [|discriminate].
    rewrite (proj1 (matmul_t_shape bo _)) in Hb2. rewrite Hbs. congruence. }
  repeat apply conj; try eassumption.
  - destruct (n mod log_step =? 0)%nat; repeat constructor. eauto.
  - rewrite loss_at_sum, set_weights_same, Hl. reflexivity.
  - apply loss_at_sum.
Qed.

(** C6, as the code has it: no count is compared before a similarity matrix
    is computed.  Each matrix has one row per output row and one column per
    target row, whatever the two counts are.  Only the criterion meets a
    mismatch: a step goes through only with no more outputs than targets,
    and with more outputs than targets, in either direction, the criterion
    raises on a label outside the columns of the matrix.  With no more
    outputs than targets in both directions the forward pass goes through,
    whether the counts are equal or not. *)
Theorem scores_without_count_check (st : state') (d : input_data) :
  (forall l : losses',
     train_forward' st d = Ok l ->
     exists b f_output b_output,
       build_batch zero (encoder_cnn (cnn_w st) (cnn_training st) (images d))
         (lengths d) = Ok b /\
       lstm_model (f_w st) (f_training st) (f_input_embs b) (seq_lengths b)
       = Ok f_output /\
       lstm_model (b_w st) (b_training st) (b_input_embs b) (seq_lengths b)
       = Ok b_output /\
       f_score l = matmul_t dot f_output (f_target_embs b) /\
       b_score l = matmul_t dot b_output (b_target_embs b) /\
       length (f_score l) = length f_output /\
       length (b_score l) = length b_output /\
       Forall (fun row => length row = length (f_target_embs b)) (f_score l) /\
       Forall (fun row => length row = length (b_target_embs b)) (b_score l) /\
       (length f_output <= length (f_target_embs b))%nat /\
       (length b_output <= length (b_target_embs b))%nat) /\
  (forall b f_output,
     build_batch zero (encoder_cnn (cnn_w st) (cnn_training st) (images d))
       (lengths d) = Ok b ->
     lstm_model (f_w st) (f_training st) (f_input_embs b) (seq_lengths b)
     = Ok f_output ->
     (length (f_target_embs b) < length f_output)%nat ->
     length (matmul_t dot f_output (f_target_embs b)) = length f_output /\
     Forall (fun row => length row = length (f_target_embs b))
       (matmul_t dot f_output (f_target_embs b)) /\
     criterion cross_entropy (matmul_t dot f_output (f_target_embs b))
       (arange (length (matmul_t dot f_output (f_target_embs b))))
     = Raise TargetOutOfBounds /\
     train_forward' st d = Raise TargetOutOfBounds) /\
  (forall b f_output b_output,
     build_batch zero (encoder_cnn (cnn_w st) (cnn_training st) (images d))
       (lengths d) = Ok b ->
     lstm_model (f_w st) (f_training st) (f_input_embs b) (seq_lengths b)
     = Ok f_output ->
     lstm_model (b_w st) (b_training st) (b_input_embs b) (seq_lengths b)
     = Ok b_output ->
     (length f_output <= length (f_target_embs b))%nat ->
     (length (b_target_embs b) < length b_output)%nat ->
     criterion cross_entropy (matmul_t dot b_output (b_target_embs b))
       (arange (length (matmul_t dot b_output (b_target_embs b))))
     = Raise TargetOutOfBounds /\
     train_forward' st d = Raise TargetOutOfBounds) /\
  (forall b f_output b_output,
     build_batch zero (encoder_cnn (cnn_w st) (cnn_training st) (images d))
       (lengths d) = Ok b ->
     lstm_model (f_w st) (f_training st) (f_input_embs b) (seq_lengths b)
     = Ok f_output ->
     lstm_model (b_w st) (b_training st) (b_input_embs b) (seq_lengths b)
     = Ok b_output ->
     (length f_output <= length (f_target_embs b))%nat ->
     (length b_output <= length (b_target_embs b))%nat ->
     exists l : losses',
       train_forward' st d = Ok l /\
       f_score l = matmul_t dot f_output (f_target_embs b) /\
       b_score l = matmul_t dot b_output (b_target_embs b)).
Proof.
  split; [|split; [|split]].
  - intros l H.
    apply train_forward_inv in H
      as (b & fo & bo & Hb & Hfo & Hbo & Hfs & Hbs & Hfl & Hbl & _).
    exists b, fo, bo.
    rewrite Hfs, criterion_matmul in Hfl. rewrite Hbs, criterion_matmul in Hbl.
    destruct (bool_decide_reflect (length fo <= length (f_target_embs b))%nat);
      [|discriminate].
    destruct (bool_decide_reflect (length bo <= length (b_target_embs b))%nat);
      [|discriminate].
    rewrite Hfs, Hbs.
    destruct (matmul_t_shape fo (f_target_embs b)) as [? ?].
    destruct (matmul_t_shape bo (b_target_embs b)) as [? ?].
    repeat apply conj; auto.
  - intros b fo Hb Hfo Hlt.
    destruct (matmul_t_shape fo (f_target_embs b)) as [Hrows Hcols].
    assert (Hcrit : criterion cross_entropy (matmul_t dot fo (f_target_embs b))
                      (arange (length (matmul_t dot fo (f_target_embs b))))
                    = Raise TargetOutOfBounds).
    { rewrite criterion_matmul, bool_decide_eq_false_2 by lia. reflexivity. }
    repeat apply conj; try assumption.
    unfold train_forward. rewrite Hb. simpl. rewrite Hfo. simpl.
    rewrite Hcrit. reflexivity.
  - intros b fo bo Hb Hfo Hbo Hle Hlt.
    assert (Hcrit : criterion cross_entropy (matmul_t dot bo (b_target_embs b))
                      (arange (length (matmul_t dot bo (b_target_embs b))))
                    = Raise TargetOutOfBounds).
    { rewrite criterion_matmul, bool_decide_eq_false_2 by lia. reflexivity. }
    split; [exact Hcrit|].
    unfold train_forward. rewrite Hb. simpl. rewrite Hfo. simpl.
    rewrite criterion_matmul, bool_decide_eq_true_2 by exact Hle. simpl.
    rewrite Hbo. simpl. rewrite Hcrit. reflexivity.
  - intros b fo bo Hb Hfo Hbo Hf Hb'.
    eexists. split.
    { unfold train_forward. rewrite Hb. simpl. rewrite Hfo. simpl.
      rewrite criterion_matmul, bool_decide_eq_true_2 by exact Hf. simpl.
      rewrite Hbo. simpl.
      rewrite criterion_matmul, bool_decide_eq_true_2 by exact Hb'. simpl.
      reflexivity. }
    split; reflexivity.
Qed.

(** C8, as the code has it: an epoch advances the learning-rate schedule
    exactly once, and does so first, before any optimisation step of the
    epoch; after the epoch's optimisation steps the parameters of the three
    models are written to their files, replacing what the files held. *)
Theorem schedule_advances_at_epoch_start (epoch : nat) (st st' : state')
    (bn bn' : option nat) :
  epoch_body' (st, bn) epoch = Ok (st', bn') ->
  exists steps r_train r_valid,
    trace st'
    = trace st
      ++ [SchedulerStep; SetTrain EncoderCnn true; SetTrain FRnn true;
          SetTrain BRnn true]
      ++ steps
      ++ [LogInfo r_train; Save FRnn (f_rnn_path comment);
          Save BRnn (b_rnn_path comment);
          Save EncoderCnn (encoder_cnn_path comment)]
      ++ [SetTrain EncoderCnn false; SetTrain FRnn false; SetTrain BRnn false;
          LogInfo r_valid] /\
    Forall step_event steps /\
    sched_steps st' = S (sched_steps st) /\
    checkpoints st' !! f_rnn_path comment = Some (f_w st') /\
    checkpoints st' !! b_rnn_path comment = Some (b_w st') /\
    checkpoints st' !! encoder_cnn_path comment = Some (cnn_w st') /\
    forall path : string,
      path <> f_rnn_path comment -> path <> b_rnn_path comment ->
      path <> encoder_cnn_path comment ->
      checkpoints st' !! path = checkpoints st !! path.
Proof.
  unfold epoch_body. intros H.
  apply bind_ok in H as ([st1 bn1] & Ht & Hv).
  apply train_phase_inv in Ht as (steps & r1 & Htr & Hk & Hs & Hf).
  apply valid_phase_inv in Hv as (r2 & Htr' & Hw & _ & Hs' & Hf').
  destruct checkpoint_paths_differ as (Hfb & Hfe & Hbe).
  unfold weights in Hw. simplify_eq.
  exists steps, r1, r2. rewrite Htr', Htr, Hs', Hs, Hf', Hf.
  rewrite <- !app_assoc. simpl.
  repeat apply conj; auto.
  - rewrite lookup_insert_ne, lookup_insert_ne, lookup_insert_eq by congruence.
    congruence.
  - rewrite lookup_insert_ne, lookup_insert_eq by congruence. congruence.
  - rewrite lookup_insert_eq. congruence.
  - intros path Hp1 Hp2 Hp3. rewrite !lookup_insert_ne by congruence. reflexivity.
Qed.

(** C9: the validation phase runs, on every batch of the validation loader
    in turn, the forward computation of training at the parameters it finds,
    in evaluation mode and with gradient tracking disabled: the losses are
    those of the training forward pass, without a graph, so that no backward
    pass could be taken from them.  Their sum is what the one log line of
    the phase reports.  No parameter, no optimiser state, no schedule and no
    checkpoint is changed. *)
Theorem validation_changes_no_parameter (epoch : nat) (st st' : state')
    (bn bn' : option nat) :
  valid_phase' epoch (st, bn) = Ok (st', bn') ->
  exists (ls : list losses') (n : nat),
    Forall2 (fun d l =>
               valid_forward' (set_train false st) d = Ok l /\
               exists lt,
                 train_forward' (set_train false st) d = Ok lt /\
                 requires_grad lt = true /\
                 l = no_grad lt)
      (val_loader epoch) ls /\
    Forall (fun l =>
              requires_grad l = false /\
              forall graph w, loss_backward backward l graph w = Raise NoGradient)
      ls /\
    trace st'
    = trace st
      ++ [SetTrain EncoderCnn false; SetTrain FRnn false; SetTrain BRnn false;
          LogInfo (ValidLoss epoch
                     (fold_left (fun acc l => radd acc (all_loss l)) ls rzero) n)] /\
    log_lines (trace st')
    = log_lines (trace st)
      ++ [ValidLoss epoch
            (fold_left (fun acc l => radd acc (all_loss l)) ls rzero) n] /\
    bn' = Some n /\
    cnn_w st' = cnn_w st /\ f_w st' = f_w st /\ b_w st' = b_w st /\
    opt st' = opt st /\
    sched_steps st' = sched_steps st /\
    checkpoints st' = checkpoints st /\
    (forall (s : state') (d : input_data),
       valid_forward' s d
       = match train_forward' s d with
         | Ok l => Ok (no_grad l)
         | Raise e => Raise e
         end).
Proof.
  unfold valid_phase. intros H.
  apply bind_ok in H as ([st1 loc1] & Hloop & H).
  pose proof (valid_loop_inv _ _ _ _ _ Hloop) as ->.
  apply valid_loop_losses in Hloop as (ls & Hls & Htot).
  destruct (batch_num loc1) as [n|] eqn:Hn; [|discriminate].
  simpl in Htot. simplify_eq/=. exists ls, n.
  assert (Hfw : Forall2 (fun d l =>
                   valid_forward' (set_train false st) d = Ok l /\
                   exists lt,
                     train_forward' (set_train false st) d = Ok lt /\
                     requires_grad lt = true /\
                     l = no_grad lt)
                  (val_loader epoch) ls).
  { assert (Hls' : Forall2 (fun d l => valid_forward' (set_train false st) d = Ok l)
                      ((enumerate1 (val_loader epoch)).*2) ls)
      by (apply Forall2_fmap_l; exact Hls).
    unfold enumerate1 in Hls'. rewrite snd_zip in Hls' by (rewrite length_seq; lia).
    eapply Forall2_impl; [exact Hls'|].
    intros d l Hl. cbv beta in Hl. split; [exact Hl|].
    rewrite valid_forward_no_grad in Hl.
    destruct (train_forward' (set_train false st) d) as [lt|e] eqn:Hlt;
      [|discriminate].
    exists lt. split; [reflexivity|]. split; [|congruence].
    apply train_forward_inv in Hlt. destruct Hlt as (? & ? & ? & Hlt).
    apply Hlt. }
  repeat apply conj; auto.
  - apply Forall_forall. intros l Hin.
    apply list_elem_of_lookup in Hin as [i Hi].
    destruct (Forall2_lookup_r _ _ _ _ _ Hfw Hi) as (d & _ & _ & lt & _ & _ & ->).
    split; reflexivity.
  - rewrite Htot, <- !app_assoc. reflexivity.
  - rewrite <- !app_assoc, !log_lines_app, Htot. simpl. rewrite ?app_nil_r.
    reflexivity.
  - apply valid_forward_no_grad.
Qed.

(** C2, as the code has it: for a well-formed batch in decreasing order of
    length the compacted target tensors are in time-major order, not outfit
    by outfit; they hold the rows of the row-major order, rearranged, one
    row per valid target.  These tensors are the ones each similarity matrix
    of the forward pass is computed against, and the labels its loss is
    given are [0, 1, ...]: the label of row [i] is [i]. *)
Theorem compacted_targets_time_major (st : state') (d : input_data) :
  lengths d <> [] ->
  foldr Z.add 0 (lengths d)
  = Z.of_nat (length (encoder_cnn (cnn_w st) (cnn_training st) (images d))) ->
  Forall (fun L => 2 <= L) (lengths d) ->
  Sorted Z.ge (effective_lengths (lengths d)) ->
  exists b f_targets b_targets,
    build_batch zero (encoder_cnn (cnn_w st) (cnn_training st) (images d)) (lengths d)
    = Ok b /\
    f_targets
    = snd (target_emb_loop (encoder_cnn (cnn_w st) (cnn_training st) (images d))
             (lengths d)) /\
    b_targets
    = reverse <$> snd (input_emb_loop
                         (encoder_cnn (cnn_w st) (cnn_training st) (images d))
                         (lengths d)) /\
    f_target_embs b = time_major f_targets /\
    b_target_embs b = time_major b_targets /\
    f_target_embs b ≡ₚ row_major f_targets /\
    b_target_embs b ≡ₚ row_major b_targets /\
    Z.of_nat (length (f_target_embs b)) = foldr Z.add 0 (effective_lengths (lengths d)) /\
    Z.of_nat (length (b_target_embs b)) = foldr Z.add 0 (effective_lengths (lengths d)) /\
    forall l : losses',
      train_forward' st d = Ok l ->
      exists f_output b_output f_labels b_labels,
        lstm_model (f_w st) (f_training st) (f_input_embs b) (seq_lengths b)
        = Ok f_output /\
        lstm_model (b_w st) (b_training st) (b_input_embs b) (seq_lengths b)
        = Ok b_output /\
        f_score l = matmul_t dot f_output (time_major f_targets) /\
        b_score l = matmul_t dot b_output (time_major b_targets) /\
        length (f_score l) = length f_output /\
        length (b_score l) = length b_output /\
        f_loss l = cross_entropy (f_score l) f_labels /\
        b_loss l = cross_entropy (b_score l) b_labels /\
        criterion cross_entropy (f_score l) f_labels = Ok (f_loss l) /\
        criterion cross_entropy (b_score l) b_labels = Ok (b_loss l) /\
        length f_labels = length (f_score l) /\
        length b_labels = length (b_score l) /\
        (forall i : nat, (i < length (f_score l))%nat -> f_labels !! i = Some i) /\
        (forall i : nat, (i < length (b_score l))%nat -> b_labels !! i = Some i).
Proof.
  intros Hne Hsum Hall Hsort.
  destruct (build_batch_time_major zero _ _ Hne Hsum Hall Hsort)
    as (b & Hb & Hft & Hbt & Hfp & Hbp & Hfn & Hbn).
  exists b. eexists _, _.
  split; [exact Hb|]. split; [reflexivity|]. split; [reflexivity|].
  repeat (split; [assumption|]).
  intros l Hl.
  apply train_forward_inv in Hl
    as (b' & fo & bo & Hb' & Hfo & Hbo & Hfs & Hbs & Hfl & Hbl & _).
  assert (b' = b) by congruence. subst b'.
  exists fo, bo, (arange (length (f_score l))), (arange (length (b_score l))).
  assert (Hf1 : f_loss l = cross_entropy (f_score l) (arange (length (f_score l)))).
  { unfold criterion in Hfl. destruct (forallb _ _); congruence. }
  assert (Hb1 : b_loss l = cross_entropy (b_score l) (arange (length (b_score l)))).
  { unfold criterion in Hbl. destruct (forallb _ _); congruence. }
  unfold arange at 5 6 7 8. rewrite !length_seq.
  repeat apply conj; try assumption; try reflexivity.
  - congruence.
  - congruence.
  - rewrite Hfs. apply matmul_t_shape.
  - rewrite Hbs. apply matmul_t_shape.
  - intros i Hi. unfold arange. rewrite lookup_seq_lt by lia. reflexivity.
  - intros i Hi. unfold arange. rewrite lookup_seq_lt by lia. reflexivity.
Qed.

End TrainingFacts.

(** ** The instance, evaluated *)

Example demo_batch :
  build_batch 0 [10; 11; 12; 13; 20; 21; 22] [4; 3]
  = Ok {| f_input_embs := [[10; 11; 12]; [20; 21; 0]];
          b_input_embs := [[13; 12; 11]; [22; 21; 0]];
          f_target_embs := [11; 21; 12; 22; 13];
          b_target_embs := [12; 21; 11; 20; 10];
          seq_lengths := [3; 2] |}.
Proof. vm_compute. reflexivity. Qed.

Example demo_forward : Demo.forward Demo.st0 Demo.outfits = Ok Demo.after_forward.
Proof. vm_compute. reflexivity. Qed.

Example demo_step :
  Demo.step 1%nat (Demo.st0, Demo.loc0) (1%nat, Demo.outfits) = Ok Demo.after_step.
Proof. vm_compute. reflexivity. Qed.

Example demo_epoch : Demo.epoch (Demo.st0, None) 1%nat = Ok Demo.after_epoch.
Proof. vm_compute. reflexivity. Qed.

Example demo_validate :
  Demo.validate 1%nat (Demo.after_epoch.1, None) = Ok Demo.after_validate.
Proof. vm_compute. reflexivity. Qed.

Example demo_trace :
  trace Demo.after_epoch.1
  = [SchedulerStep; SetTrain EncoderCnn true; SetTrain FRnn true; SetTrain BRnn true;
     ZeroGrad EncoderCnn; ZeroGrad FRnn; ZeroGrad BRnn;
     Backward (f_loss Demo.after_forward + b_loss Demo.after_forward);
     ClipGradNorm; OptimizerStep;
     LogInfo (TrainLoss 1 (f_loss Demo.after_forward + b_loss Demo.after_forward) 1);
     Save FRnn "f_rnn_run1.pth"; Save BRnn "b_rnn_run1.pth";
     Save EncoderCnn "encoder_cnn_run1.pth";
     SetTrain EncoderCnn false; SetTrain FRnn false; SetTrain BRnn false;
     LogInfo (ValidLoss 1 (f_loss Demo.after_forward + b_loss Demo.after_forward) 1)].
Proof. vm_compute. reflexivity. Qed.

(** ** The theorems at the instance *)

Lemma forward_slices_witness :
  foldr Z.add 0 [4; 3] = Z.of_nat (length [10; 11; 12; 13; 20; 21; 22]) /\
  Forall (fun L => 2 <= L) [4; 3] /\
  [4; 3] !! 1%nat = Some 3 /\
  (exists inp tgt,
     snd (input_emb_loop [10; 11; 12; 13; 20; 21; 22] [4; 3]) !! 1%nat = Some inp /\
     snd (target_emb_loop [10; 11; 12; 13; 20; 21; 22] [4; 3]) !! 1%nat = Some tgt /\
     Z.of_nat (length inp) = 3 - 1 /\
     Z.of_nat (length tgt) = 3 - 1 /\
     forall k : nat, Z.of_nat k < 3 - 1 ->
       exists x y,
         [10; 11; 12; 13; 20; 21; 22]
           !! Z.to_nat (offset [4; 3] 1 + Z.of_nat k) = Some x /\
         [10; 11; 12; 13; 20; 21; 22]
           !! Z.to_nat (offset [4; 3] 1 + 1 + Z.of_nat k) = Some y /\
         inp !! k = Some x /\ tgt !! k = Some y) /\
  effective_lengths [4; 3] !! 1%nat = Some (3 - 1).
Proof.
  assert (H1 : foldr Z.add 0 [4; 3]
               = Z.of_nat (length [10; 11; 12; 13; 20; 21; 22])) by reflexivity.
  assert (H2 : Forall (fun L => 2 <= L) [4; 3]) by (repeat constructor; lia).
  assert (H3 : [4; 3] !! 1%nat = Some 3) by reflexivity.
  split; [exact H1|]. split; [exact H2|]. split; [exact H3|].
  exact (forward_slices [10; 11; 12; 13; 20; 21; 22] [4; 3] 1 3 H1 H2 H3).
Defined.

Lemma backward_rows_witness :
  [4; 3] !! 1%nat = Some 3 /\
  exists p,
    pad_batch 0 [10; 11; 12; 13; 20; 21; 22] [4; 3] = Ok p /\
    f_input_pad p !! 1%nat = Some [20; 21; 0] /\
    b_target_pad p !! 1%nat = Some [21; 20; 0] /\
    f_target_pad p !! 1%nat = Some [21; 22; 0] /\
    b_input_pad p !! 1%nat = Some [22; 21; 0].
Proof.
  assert (H : [4; 3] !! 1%nat = Some 3) by reflexivity.
  split; [exact H|].
  destruct (backward_rows_reverse_forward 0 [10; 11; 12; 13; 20; 21; 22] [4; 3] 1 3 H)
    as (p & inp & tgt & Hp & Hi & Ht & Hfi & Hbt & Hft & Hbi).
  vm_compute in Hi. vm_compute in Ht. simplify_eq.
  exists p. split; [exact Hp|].
  split; [exact Hfi|]. split; [exact Hbt|]. split; [exact Hft | exact Hbi].
Defined.

Lemma compacted_targets_witness :
  lengths Demo.outfits <> [] /\
  foldr Z.add 0 (lengths Demo.outfits)
  = Z.of_nat (length (Demo.encoder_cnn (cnn_w Demo.st0) (cnn_training Demo.st0)
                        (images Demo.outfits))) /\
  Forall (fun L => 2 <= L) (lengths Demo.outfits) /\
  Sorted Z.ge (effective_lengths (lengths Demo.outfits)) /\
  exists b,
    build_batch 0 [10; 11; 12; 13; 20; 21; 22] [4; 3] = Ok b /\
    f_target_embs b = [11; 21; 12; 22; 13] /\
    b_target_embs b = [12; 21; 11; 20; 10] /\
    exists f_labels,
      f_loss Demo.after_forward
      = Demo.cross_entropy (f_score Demo.after_forward) f_labels /\
      f_labels !! 3%nat = Some 3%nat.
Proof.
  assert (H0 : lengths Demo.outfits <> []) by discriminate.
  assert (H1 : foldr Z.add 0 (lengths Demo.outfits)
               = Z.of_nat (length (Demo.encoder_cnn (cnn_w Demo.st0)
                                     (cnn_training Demo.st0) (images Demo.outfits))))
    by reflexivity.
  assert (H2 : Forall (fun L => 2 <= L) (lengths Demo.outfits))
    by (repeat constructor; lia).
  assert (H3 : Sorted Z.ge (effective_lengths (lengths Demo.outfits))).
  { repeat constructor. simpl. lia. }
  assert (Hfw : Demo.forward Demo.st0 Demo.outfits = Ok Demo.after_forward)
    by (vm_compute; reflexivity).
  split; [exact H0|]. split; [exact H1|]. split; [exact H2|]. split; [exact H3|].
  destruct (compacted_targets_time_major 0 Demo.encoder_cnn Demo.lstm_model Z.mul
              Demo.cross_entropy Z.add Demo.st0 Demo.outfits H0 H1 H2 H3)
    as (b & ft & bt & Hb & -> & -> & Hf & Hbt & _ & _ & _ & _ & Hl).
  destruct (Hl Demo.after_forward Hfw)
    as (fo & bo & fl & bl & _ & _ & _ & _ & _ & _ & Hfl & _ & _ & _ & _ & _ & Hi & _).
  exists b. split; [exact Hb|]. split; [exact Hf|]. split; [exact Hbt|].
  exists fl. split; [exact Hfl|]. apply Hi. vm_compute. lia.
Defined.

Lemma unsorted_lengths_witness :
  ~ Sorted Z.ge (effective_lengths [2; 3]) /\
  exists p e,
    pad_batch 0 [1; 2; 3; 4; 5] [2; 3] = Ok p /\
    pack_padded_sequence (f_target_pad p) (effective_lengths [2; 3]) = Raise e /\
    build_batch 0 [1; 2; 3; 4; 5] [2; 3] = Raise e.
Proof.
  assert (H : ~ Sorted Z.ge (effective_lengths [2; 3])).
  { intros Hs. inversion Hs as [|? ? _ Hd]. inversion Hd as [|? ? Hge]. simpl in Hge. lia. }
  split; [exact H|].
  exact (unsorted_lengths_raise 0 [1; 2; 3; 4; 5] [2; 3] H).
Defined.



Lemma backpropagated_loss_witness :
  Demo.step 1%nat (Demo.st0, Demo.loc0) (1%nat, Demo.outfits)
  = Ok (Demo.after_step.1, Demo.after_step.2) /\
  exists l log,
    Demo.forward Demo.st0 Demo.outfits = Ok l /\
    all_loss l = f_loss l + b_loss l /\
    trace Demo.after_step.1
    = trace Demo.st0
      ++ [ZeroGrad EncoderCnn; ZeroGrad FRnn; ZeroGrad BRnn;
          Backward (f_loss l + b_loss l); ClipGradNorm; OptimizerStep]
      ++ log /\
    total_loss Demo.after_step.2 = total_loss Demo.loc0 + (f_loss l + b_loss l) /\
    (weights Demo.after_step.1, opt Demo.after_step.1)
    = Demo.optimizer_step (opt Demo.st0) (sched_steps Demo.st0) (weights Demo.st0)
        (Demo.clip_grad_norm
           (Demo.backward
              (loss_at 0 Demo.encoder_cnn Demo.lstm_model Z.mul Demo.cross_entropy
                 Z.add Demo.st0 Demo.outfits)
              (weights Demo.st0))).
Proof.
  assert (H : Demo.step 1%nat (Demo.st0, Demo.loc0) (1%nat, Demo.outfits)
              = Ok (Demo.after_step.1, Demo.after_step.2))
    by (vm_compute; reflexivity).
  split; [exact H|].
  destruct (backpropagated_loss_is_sum 0 Demo.encoder_cnn Demo.lstm_model Z.mul
              Demo.cross_entropy Z.add Demo.backward Demo.clip_grad_norm
              Demo.optimizer_step 1 1%nat Demo.st0 Demo.after_step.1
              Demo.loc0 Demo.after_step.2 1%nat Demo.outfits H)
    as (l & log & b & fo & bo & Hl & _ & _ & Hall & Htr & _ & Htot
        & _ & _ & _ & _ & _ & _ & _ & _ & _ & Hstep).
  exists l, log. split; [exact Hl|]. split; [exact Hall|].
  split; [exact Htr|]. split; [exact Htot | exact Hstep].
Defined.

Lemma scores_witness :
  Demo.forward Demo.st0 Demo.outfits = Ok Demo.after_forward /\
  (exists b f_output b_output,
     build_batch 0 (images Demo.outfits) (lengths Demo.outfits) = Ok b /\
     f_score Demo.after_forward = matmul_t Z.mul f_output (f_target_embs b) /\
     b_score Demo.after_forward = matmul_t Z.mul b_output (b_target_embs b) /\
     (length f_output <= length (f_target_embs b))%nat /\
     (length b_output <= length (b_target_embs b))%nat).
Proof.
  assert (H : Demo.forward Demo.st0 Demo.outfits = Ok Demo.after_forward)
    by (vm_compute; reflexivity).
  split; [exact H|].
  destruct (proj1 (scores_without_count_check 0 Demo.encoder_cnn Demo.lstm_model
                     Z.mul Demo.cross_entropy Z.add Demo.st0 Demo.outfits)
              Demo.after_forward H)
    as (b & fo & bo & Hb & _ & _ & Hfs & Hbs & _ & _ & _ & _ & Hfl & Hbl).
  exists b, fo, bo. split; [exact Hb|]. split; [exact Hfs|]. split; [exact Hbs|].
  split; [exact Hfl | exact Hbl].
Defined.

Lemma schedule_witness :
  Demo.epoch (Demo.st0, None) 1%nat = Ok (Demo.after_epoch.1, Demo.after_epoch.2) /\
  sched_steps Demo.after_epoch.1 = S (sched_steps Demo.st0) /\
  checkpoints Demo.after_epoch.1 !! "f_rnn_run1.pth" = Some (f_w Demo.after_epoch.1) /\
  checkpoints Demo.after_epoch.1 !! "b_rnn_run1.pth" = Some (b_w Demo.after_epoch.1) /\
  checkpoints Demo.after_epoch.1 !! "encoder_cnn_run1.pth" = Some (cnn_w Demo.after_epoch.1).
Proof.
  assert (H : Demo.epoch (Demo.st0, None) 1%nat
              = Ok (Demo.after_epoch.1, Demo.after_epoch.2))
    by (vm_compute; reflexivity).
  split; [exact H|].
  destruct (schedule_advances_at_epoch_start 0 Demo.encoder_cnn Demo.lstm_model
              Z.mul Demo.cross_entropy Z.add 0 Demo.backward Demo.clip_grad_norm
              Demo.optimizer_step 1 "_run1" Demo.loader Demo.loader 1%nat
              Demo.st0 Demo.after_epoch.1 None Demo.after_epoch.2 H)
    as (steps & r1 & r2 & _ & _ & Hs & Hf & Hb & He & _).
  split; [exact Hs|]. split; [exact Hf|]. split; [exact Hb | exact He].
Defined.

Lemma validation_witness :
  Demo.validate 1%nat (Demo.after_epoch.1, None)
  = Ok (Demo.after_validate.1, Demo.after_validate.2) /\
  cnn_w Demo.after_validate.1 = cnn_w Demo.after_epoch.1 /\
  f_w Demo.after_validate.1 = f_w Demo.after_epoch.1 /\
  b_w Demo.after_validate.1 = b_w Demo.after_epoch.1 /\
  opt Demo.after_validate.1 = opt Demo.after_epoch.1 /\
  checkpoints Demo.after_validate.1 = checkpoints Demo.after_epoch.1 /\
  exists (ls : list (@losses Z Z)) (n : nat),
    length ls = length (Demo.loader 1%nat) /\
    log_lines (trace Demo.after_validate.1)
    = log_lines (trace Demo.after_epoch.1)
      ++ [ValidLoss 1 (fold_left (fun acc l => acc + all_loss l) ls 0) n].
Proof.
  assert (H : Demo.validate 1%nat (Demo.after_epoch.1, None)
              = Ok (Demo.after_validate.1, Demo.after_validate.2))
    by (vm_compute; reflexivity).
  split; [exact H|].
  destruct (validation_changes_no_parameter 0 Demo.encoder_cnn Demo.lstm_model
              Z.mul Demo.cross_entropy Z.add 0 Demo.backward Demo.loader 1%nat
              Demo.after_epoch.1 Demo.after_validate.1 None Demo.after_validate.2 H)
    as (ls & n & Hfw & _ & _ & Hlog & _ & H1 & H2 & H3 & H4 & _ & H5 & _).
  split; [exact H1|]. split; [exact H2|]. split; [exact H3|]. split; [exact H4|].
  split; [exact H5|].
  exists ls, n. split; [|exact Hlog].
  symmetry. exact (Forall2_length _ _ _ Hfw).
Defined.

(** ** Inputs on which the code departs from the specification *)

(** C2: a batch of two outfits of three garments.  The compacted forward
    targets interleave the outfits, step by step; outfit by outfit they would
    read [2; 3; 5; 6]. *)
Lemma compacted_targets_not_row_major :
  foldr Z.add 0 [3; 3] = Z.of_nat (length [1; 2; 3; 4; 5; 6]) /\
  Forall (fun L => 2 <= L) [3; 3] /\
  Sorted Z.ge (effective_lengths [3; 3]) /\
  exists b,
    build_batch 0 [1; 2; 3; 4; 5; 6] [3; 3] = Ok b /\
    f_target_embs b = [2; 5; 3; 6] /\
    row_major (snd (target_emb_loop [1; 2; 3; 4; 5; 6] [3; 3])) = [2; 3; 5; 6] /\
    f_target_embs b <> row_major (snd (target_emb_loop [1; 2; 3; 4; 5; 6] [3; 3])).
Proof.
  split; [reflexivity|].
  split; [repeat constructor; lia|].
  split; [repeat constructor; simpl; lia|].
  eexists. split; [vm_compute; reflexivity|].
  split; [reflexivity|]. split; [reflexivity|].
  vm_compute. discriminate.
Qed.


(** One row of embeddings under a length of three: no target row is left,
    and the compaction raises. *)
Example no_target_row_raises : build_batch 0 [1] [3] = Raise CannotPackEmpty.
Proof. vm_compute. reflexivity. Qed.

(** C6: the sequence model that packs its input, on a batch cut short by
    the slicing: two rows of embeddings under one length of three.  There
    are two output rows against one target row.  No count is compared: the
    2 x 1 similarity matrix is computed, and the error that ends the step is
    the criterion's, on the label outside its one column. *)
Lemma count_mismatch_reaches_the_criterion :
  exists b f_output,
    build_batch 0 (Demo.encoder_cnn (cnn_w Demo.st0) (cnn_training Demo.st0) [1; 2]) [3]
    = Ok b /\
    Demo.lstm_model (f_w Demo.st0) (f_training Demo.st0)
      (f_input_embs b) (seq_lengths b) = Ok f_output /\
    length f_output = 2%nat /\
    length (f_target_embs b) = 1%nat /\
    matmul_t Z.mul f_output (f_target_embs b) = [[2]; [4]] /\
    criterion Demo.cross_entropy (matmul_t Z.mul f_output (f_target_embs b))
      (arange (length (matmul_t Z.mul f_output (f_target_embs b))))
    = Raise TargetOutOfBounds /\
    Demo.forward Demo.st0 {| lengths := [3]; images := [1; 2] |}
    = Raise TargetOutOfBounds.
Proof.
  eexists _, _. split; [vm_compute; reflexivity|].
  split; [vm_compute; reflexivity|].
  repeat split; vm_compute; reflexivity.
Qed.


(** C8: one epoch of one batch.  The schedule advances as the first event of
    the epoch, and the optimiser steps after it. *)
Lemma schedule_advance_precedes_steps :
  trace Demo.after_epoch.1 !! 0%nat = Some SchedulerStep /\
  trace Demo.after_epoch.1 !! 9%nat = Some OptimizerStep /\
  ~ advance_after_steps (trace Demo.after_epoch.1).
Proof.
  assert (H0 : trace Demo.after_epoch.1 !! 0%nat = Some SchedulerStep)
    by (vm_compute; reflexivity).
  assert (H9 : trace Demo.after_epoch.1 !! 9%nat = Some OptimizerStep)
    by (vm_compute; reflexivity).
  split; [exact H0|]. split; [exact H9|].
  intros H. specialize (H 0%nat 9%nat H0 H9). lia.
Qed.

(** * Further properties *)

(** ** The builder *)

Section BuilderMore.

Context {E : Type}.
Variable zero : E.
Implicit Types (emb : list E) (lengths : list Z) (seqs : list (list E)).

(** Flipping puts row [k] of the result at row [n - 1 - k] of the tensor and
    keeps the number of rows. *)
Theorem flip_tensor_rows (t : list E) :
  length (flip_tensor zero t) = length t /\
  forall k : nat, (k < length t)%nat ->
    flip_tensor zero t !! k = t !! (length t - 1 - k)%nat.
Proof.
  split; [apply flip_tensor_length|].
  intros k Hk. rewrite flip_tensor_reverse, reverse_lookup by exact Hk.
  f_equal. lia.
Qed.

(** Flipping twice gives the tensor back. *)
Theorem flip_tensor_involutive (t : list E) :
  flip_tensor zero (flip_tensor zero t) = t.
Proof. rewrite !flip_tensor_reverse. apply reverse_involutive. Qed.

(** With lengths of at least one no slice bound is negative: every slice
    starts at its outfit's offset and is cut off, without an error, where the
    embedding rows end. *)
Theorem slices_truncate emb lengths (i : nat) (L : Z) :
  Forall (fun L => 1 <= L) lengths ->
  lengths !! i = Some L ->
  snd (input_emb_loop emb lengths) !! i
  = Some (take (Z.to_nat (L - 1)) (drop (Z.to_nat (offset lengths i)) emb)) /\
  snd (target_emb_loop emb lengths) !! i
  = Some (take (Z.to_nat (L - 1)) (drop (S (Z.to_nat (offset lengths i))) emb)).
Proof.
  intros Hall Hi.
  assert (Hnn : Forall (fun L => 0 <= L) lengths).
  { eapply Forall_impl; [exact Hall|]. simpl. intros; lia. }
  pose proof (offset_nonneg lengths i Hnn) as Hs.
  assert (HL : 1 <= L).
  { rewrite Forall_lookup in Hall. exact (Hall i L Hi). }
  rewrite (input_emb_list_lookup _ _ _ _ Hi), (target_emb_list_lookup _ _ _ _ Hi).
  rewrite !py_slice_nonneg by lia. split; do 2 f_equal; try lia.
  f_equal. lia.
Qed.

(** An outfit of length zero at the head of the batch has the slice bound
    [-1], which Python counts from the end: its forward input is every
    embedding row but the last, and its forward target is empty. *)
Theorem empty_head_outfit_wraps emb lengths :
  head (snd (input_emb_loop emb (0 :: lengths)))
  = Some (take (length emb - 1) emb) /\
  head (snd (target_emb_loop emb (0 :: lengths))) = Some [] /\
  head (effective_lengths (0 :: lengths)) = Some (-1).
Proof.
  rewrite !head_lookup.
  rewrite (input_emb_list_lookup emb (0 :: lengths) 0 0 eq_refl).
  rewrite (target_emb_list_lookup emb (0 :: lengths) 0 0 eq_refl).
  rewrite offset_0. unfold py_slice, slice_bound. simpl.
  repeat apply conj; try reflexivity.
  - f_equal. destruct emb as [|x emb']; [reflexivity|].
    f_equal. cbn [length]. lia.
  - f_equal. destruct emb as [|x emb']; [reflexivity|].
    cbn [length]. replace (Z.to_nat _) with 0%nat by lia. reflexivity.
Qed.

(** In a well-formed batch the forward target of an outfit is its forward
    input moved on by one garment: the two share all rows but the first of
    the input and the last of the target, and together they are the outfit. *)
Theorem target_is_input_shifted emb lengths (i : nat) (L : Z) :
  foldr Z.add 0 lengths = Z.of_nat (length emb) ->
  Forall (fun L => 2 <= L) lengths ->
  lengths !! i = Some L ->
  exists x mid y,
    snd (input_emb_loop emb lengths) !! i = Some (x :: mid) /\
    snd (target_emb_loop emb lengths) !! i = Some (mid ++ [y]) /\
    take (Z.to_nat L) (drop (Z.to_nat (offset lengths i)) emb) = x :: mid ++ [y].
Proof.
  intros Hsum Hall Hi.
  destruct (outfit_bounds emb lengths i L Hsum Hall Hi) as (Hs & He & HL).
  rewrite (input_emb_list_lookup _ _ _ _ Hi), (target_emb_list_lookup _ _ _ _ Hi).
  rewrite !py_slice_nonneg by lia.
  set (s := Z.to_nat (offset lengths i)).
  destruct (Z.to_nat (L - 1)) as [|k] eqn:Hk; [lia|].
  replace (Z.to_nat (offset lengths i + L - 1 - offset lengths i)) with (S k) by lia.
  replace (Z.to_nat (offset lengths i + L - (offset lengths i + 1))) with (S k) by lia.
  replace (Z.to_nat (offset lengths i + 1)) with (S s) by lia.
  replace (Z.to_nat L) with (S (S k)) by lia.
  destruct (lookup_lt_is_Some_2 emb s) as [x Hx]; [lia|].
  destruct (lookup_lt_is_Some_2 emb (S s + k)) as [y Hy]; [lia|].
  exists x, (take k (drop (S s) emb)), y.
  assert (Ht : take (S k) (drop (S s) emb) = take k (drop (S s) emb) ++ [y]).
  { apply take_S_r. rewrite lookup_drop. exact Hy. }
  rewrite (drop_S emb x s Hx). simpl take. rewrite Ht.
  repeat apply conj; reflexivity.
Qed.

Lemma padded_rectangular seqs :
  Forall (fun row => length row = max_list (length <$> seqs))
    (map (pad_to zero (max_list (length <$> seqs))) seqs).
Proof.
  rewrite Forall_map. pose proof (max_list_bound (length <$> seqs)) as H.
  rewrite Forall_fmap in H. eapply Forall_impl; [exact H|].
  intros row Hrow. apply pad_to_length, Hrow.
Qed.

(** Whatever the lengths are, the four padded tensors have one row per
    outfit and are rectangular; the forward input and the backward target
    have one width, the forward target and the backward input another. *)
Theorem padded_shapes emb lengths :
  lengths <> [] ->
  exists p (Ti Tt : nat),
    pad_batch zero emb lengths = Ok p /\
    length (f_input_pad p) = length lengths /\
    length (b_target_pad p) = length lengths /\
    length (f_target_pad p) = length lengths /\
    length (b_input_pad p) = length lengths /\
    Forall (fun row => length row = Ti) (f_input_pad p) /\
    Forall (fun row => length row = Ti) (b_target_pad p) /\
    Forall (fun row => length row = Tt) (f_target_pad p) /\
    Forall (fun row => length row = Tt) (b_input_pad p).
Proof.
  intros Hne.
  destruct (pad_batch_ok zero emb lengths Hne) as (p & Hp & Hfi & Hbt & Hft & Hbi).
  exists p, (max_list (length <$> snd (input_emb_loop emb lengths))),
    (max_list (length <$> snd (target_emb_loop emb lengths))).
  split; [exact Hp|].
  rewrite Hfi, Hbt, Hft, Hbi, !length_map.
  rewrite input_emb_list_length, target_emb_list_length.
  pose proof (padded_rectangular (map (flip_tensor zero) (snd (input_emb_loop emb lengths))))
    as H2.
  pose proof (padded_rectangular (map (flip_tensor zero) (snd (target_emb_loop emb lengths))))
    as H4.
  rewrite flipped_lengths in H2, H4. rewrite !flipped_lengths.
  repeat apply conj; try reflexivity; try assumption; apply padded_rectangular.
Qed.

Lemma max_list_max_length seqs :
  Z.of_nat (max_list (length <$> seqs)) = max_length (len <$> seqs).
Proof.
  unfold max_length. induction seqs as [|s l IH]; [reflexivity|].
  rewrite !fmap_cons. simpl. rewrite Nat2Z.inj_max, IH. reflexivity.
Qed.

(** In a well-formed batch every row of the four padded tensors is as long
    as the longest effective length of the batch. *)
Theorem padded_width_is_longest emb lengths :
  lengths <> [] ->
  foldr Z.add 0 lengths = Z.of_nat (length emb) ->
  Forall (fun L => 2 <= L) lengths ->
  exists p,
    pad_batch zero emb lengths = Ok p /\
    Forall (fun row => Z.of_nat (length row) = max_length (effective_lengths lengths))
      (f_input_pad p ++ b_target_pad p ++ f_target_pad p ++ b_input_pad p).
Proof.
  intros Hne Hsum Hall.
  destruct (pad_batch_ok zero emb lengths Hne) as (p & Hp & Hfi & Hbt & Hft & Hbi).
  exists p. split; [exact Hp|].
  assert (HM : Z.of_nat (max_list (length <$> snd (input_emb_loop emb lengths)))
               = max_length (effective_lengths lengths)).
  { rewrite max_list_max_length, input_lens by assumption. reflexivity. }
  assert (Hw : max_list (length <$> snd (target_emb_loop emb lengths))
               = max_list (length <$> snd (input_emb_loop emb lengths))).
  { apply Nat2Z.inj. rewrite !max_list_max_length.
    rewrite input_lens, target_lens by assumption. reflexivity. }
  rewrite Hfi, Hbt, Hft, Hbi, !flipped_lengths, Hw.
  pose proof (padded_rectangular (snd (input_emb_loop emb lengths))) as H1.
  pose proof (padded_rectangular (map (flip_tensor zero) (snd (input_emb_loop emb lengths))))
    as H2.
  pose proof (padded_rectangular (snd (target_emb_loop emb lengths))) as H3.
  pose proof (padded_rectangular (map (flip_tensor zero) (snd (target_emb_loop emb lengths))))
    as H4.
  rewrite flipped_lengths in H2. rewrite flipped_lengths in H4.
  rewrite Hw in H3, H4.
  rewrite !Forall_app. repeat apply conj.
  all: eapply Forall_impl; [eassumption|]; simpl; intros row Hrow; rewrite Hrow; exact HM.
Qed.

(** ** Alignment of packed inputs and compacted targets *)

Lemma column_Forall2 (P : E -> E -> Prop) (xs ys : list (list E)) (t : nat) :
  Forall2 (Forall2 P) xs ys -> Forall2 P (column xs t) (column ys t).
Proof.
  induction 1 as [|x y xs' ys' Hxy _ IH]; [constructor|].
  rewrite !column_cons. apply Forall2_app; [|exact IH].
  rewrite Forall2_lookup in Hxy. specialize (Hxy t).
  destruct Hxy; simpl; repeat constructor; assumption.
Qed.

Lemma widths_Forall2 (P : E -> E -> Prop) (xs ys : list (list E)) :
  Forall2 (Forall2 P) xs ys -> length <$> xs = length <$> ys.
Proof.
  induction 1 as [|x y xs' ys' Hxy _ IH]; [reflexivity|].
  rewrite !fmap_cons, IH, (Forall2_length _ _ _ Hxy). reflexivity.
Qed.

(** Batches related row by row stay related, position by position, in
    time-major order. *)
Lemma time_major_Forall2 (P : E -> E -> Prop) (xs ys : list (list E)) :
  Forall2 (Forall2 P) xs ys -> Forall2 P (time_major xs) (time_major ys).
Proof.
  intros H. unfold time_major. rewrite <- (widths_Forall2 P xs ys H).
  induction (seq 0 (max_list (length <$> xs))) as [|t ts IH]; [constructor|].
  simpl. apply Forall2_app; [|exact IH]. apply column_Forall2, H.
Qed.

Lemma slices_consecutive emb lengths :
  foldr Z.add 0 lengths = Z.of_nat (length emb) ->
  Forall (fun L => 2 <= L) lengths ->
  Forall2 (Forall2 (consecutive emb))
    (snd (input_emb_loop emb lengths)) (snd (target_emb_loop emb lengths)).
Proof.
  intros Hsum Hall. apply Forall2_same_length_lookup_2.
  { rewrite input_emb_list_length, target_emb_list_length. reflexivity. }
  intros i inp tgt Hinp Htgt.
  destruct (lengths !! i) as [L|] eqn:Hi.
  2:{ apply lookup_ge_None in Hi. apply lookup_lt_Some in Hinp.
      rewrite input_emb_list_length in Hinp. lia. }
  rewrite (input_emb_list_lookup _ _ _ _ Hi) in Hinp.
  rewrite (target_emb_list_lookup _ _ _ _ Hi) in Htgt. simplify_eq.
  destruct (outfit_bounds emb lengths i L Hsum Hall Hi) as (Hs & He & HL).
  apply Forall2_same_length_lookup_2.
  { apply Nat2Z.inj. rewrite !py_slice_length by lia. lia. }
  intros k x y Hx Hy.
  assert (Hk : Z.of_nat k < L - 1).
  { apply lookup_lt_Some in Hx. apply inj_lt in Hx.
    rewrite py_slice_length in Hx by lia. lia. }
  rewrite py_slice_lookup in Hx by lia. rewrite py_slice_lookup in Hy by lia.
  exists (Z.to_nat (offset lengths i + Z.of_nat k)). split; [exact Hx|].
  rewrite <- Hy. f_equal. lia.
Qed.

(** For a well-formed batch in decreasing order of length, packing the padded
    inputs by the effective lengths, as a sequence model does, yields one row
    per compacted target in the same position: the forward target at a
    position is the garment that follows the forward input at that position,
    and the backward target is the garment that precedes the backward
    input. *)
Theorem packed_inputs_align_with_targets emb lengths :
  lengths <> [] ->
  foldr Z.add 0 lengths = Z.of_nat (length emb) ->
  Forall (fun L => 2 <= L) lengths ->
  Sorted Z.ge (effective_lengths lengths) ->
  exists b f_rows b_rows,
    build_batch zero emb lengths = Ok b /\
    pack_padded_sequence (f_input_embs b) (seq_lengths b) = Ok f_rows /\
    pack_padded_sequence (b_input_embs b) (seq_lengths b) = Ok b_rows /\
    Forall2 (consecutive emb) f_rows (f_target_embs b) /\
    Forall2 (fun x y => consecutive emb y x) b_rows (b_target_embs b).
Proof.
  intros Hne Hsum Hall Hsort.
  destruct (build_batch_ok zero emb lengths Hne Hsum Hall Hsort) as (p & Hp & Hb).
  destruct (pad_batch_ok zero emb lengths Hne) as (p' & Hp' & Hfi & _ & _ & Hbi).
  assert (p' = p) by congruence. subst p'.
  assert (Hpos : Forall (fun l => 0 < l) (effective_lengths lengths)).
  { unfold effective_lengths. rewrite Forall_fmap.
    eapply Forall_impl; [exact Hall|]. simpl. intros; lia. }
  assert (Hine : snd (input_emb_loop emb lengths) <> []).
  { intros H. apply (f_equal length) in H.
    rewrite input_emb_list_length in H. destruct lengths; simplify_eq/=. }
  assert (Htne : map (flip_tensor zero) (snd (target_emb_loop emb lengths)) <> []).
  { intros H. apply (f_equal length) in H.
    rewrite length_map, target_emb_list_length in H. destruct lengths; simplify_eq/=. }
  pose proof (slices_consecutive emb lengths Hsum Hall) as Hcons.
  eexists _, _, _. split; [exact Hb|]. simpl. rewrite Hfi, Hbi.
  split.
  { apply pack_pad; try assumption. symmetry. apply input_lens; assumption. }
  split.
  { apply pack_pad; try assumption.
    rewrite flipped_lens. symmetry. apply target_lens; assumption. }
  split.
  - apply time_major_Forall2, Hcons.
  - rewrite flipped_reverse. apply time_major_Forall2.
    apply Forall2_fmap_2. apply Forall2_flip.
    eapply Forall2_impl; [exact Hcons|].
    intros inp tgt H. apply Forall2_reverse. apply Forall2_flip.
    eapply Forall2_impl; [exact H|]. auto.
Qed.

Lemma effective_lengths_sum lengths :
  foldr Z.add 0 (effective_lengths lengths)
  = foldr Z.add 0 lengths - Z.of_nat (length lengths).
Proof.
  induction lengths as [|L l IH]; [reflexivity|].
  unfold effective_lengths in *. cbn [map foldr length]. rewrite IH. lia.
Qed.

(** For a well-formed batch in decreasing order of length the number of
    compacted targets, in either direction, is the number of embedding rows
    less the number of outfits. *)
Theorem target_count emb lengths :
  lengths <> [] ->
  foldr Z.add 0 lengths = Z.of_nat (length emb) ->
  Forall (fun L => 2 <= L) lengths ->
  Sorted Z.ge (effective_lengths lengths) ->
  exists b,
    build_batch zero emb lengths = Ok b /\
    Z.of_nat (length (f_target_embs b))
    = Z.of_nat (length emb) - Z.of_nat (length lengths) /\
    Z.of_nat (length (b_target_embs b))
    = Z.of_nat (length emb) - Z.of_nat (length lengths).
Proof.
  intros Hne Hsum Hall Hsort.
  destruct (build_batch_ok zero emb lengths Hne Hsum Hall Hsort) as (p & _ & Hb).
  eexists. split; [exact Hb|]. simpl.
  rewrite !time_major_length, <- (flipped_reverse zero), flipped_lens.
  rewrite input_lens, target_lens by assumption.
  rewrite effective_lengths_sum, Hsum. split; reflexivity.
Qed.

End BuilderMore.

(** ** The scorer and the log file *)

(** On the similarity matrix of some outputs and targets, with the labels
    [0, 1, ...] of lines 152 and 155, the criterion returns a loss exactly
    when there are no more output rows than target rows. *)
Theorem criterion_accepts_iff {E Sc R : Type} (dot : E -> E -> Sc)
    (cross_entropy : list (list Sc) -> list nat -> R) (outputs targets : list E) :
  (exists v,
     criterion cross_entropy (matmul_t dot outputs targets)
       (arange (length (matmul_t dot outputs targets))) = Ok v)
  <-> (length outputs <= length targets)%nat.
Proof.
  unfold criterion, matmul_t, arange. rewrite length_map.
  destruct (forallb _ _) eqn:Hall.
  - split; [intros _ | eauto].
    destruct outputs as [|x o _] using rev_ind; [simpl; lia|].
    rewrite forallb_forall in Hall.
    specialize (Hall (map (dot x) targets, length o)). cbv beta iota in Hall.
    rewrite length_map in Hall. rewrite length_app. simpl.
    enough ((length o <? length targets)%nat = true) as Hlt
      by (apply Nat.ltb_lt in Hlt; lia).
    apply Hall.
    apply list_elem_of_In, list_elem_of_lookup. exists (length o).
    apply lookup_zip_with_Some. eexists _, _. split; [reflexivity|].
    rewrite length_app, map_app. simpl. split.
    + rewrite lookup_app_r by (rewrite length_map; lia).
      rewrite length_map, Nat.sub_diag. reflexivity.
    + rewrite lookup_seq_lt by lia. reflexivity.
  - split; [intros [v Hv]; discriminate|]. intros Hle. exfalso.
    apply not_true_iff_false in Hall. apply Hall. clear Hall.
    apply forallb_forall. intros [row c] Hin.
    apply list_elem_of_In, list_elem_of_lookup in Hin as [i Hi].
    apply lookup_zip_with_Some in Hi as (row' & c' & Heq & Hrow & Hc).
    simplify_eq. apply Nat.ltb_lt.
    apply lookup_seq in Hc as [-> Hlt]. simpl.
    rewrite list_lookup_fmap in Hrow.
    destruct (outputs !! i) as [x|]; simplify_eq/=.
    rewrite length_map. lia.
Qed.

Lemma before_dot_prefix (base ext : string) :
  ~ In "."%char (String.list_ascii_of_string base) ->
  before_dot (base +:+ "." +:+ ext) = base.
Proof.
  induction base as [|c base IH]; intros Hdot; [reflexivity|].
  simpl in *. destruct (Ascii.eqb_spec c "."%char) as [->|Hc]; [tauto|].
  f_equal. apply IH. tauto.
Qed.

(** The log file is named after what stands before the first dot of the
    script's path: a path [base.ext] with no dot in [base] gives
    [log_<base><comment>.log], and a path that begins with a dot gives
    [log_<comment>.log]. *)
Theorem log_file_name_of_path (base ext comment : string) :
  ~ In "."%char (String.list_ascii_of_string base) ->
  log_file_name (base +:+ "." +:+ ext) comment = "log_" +:+ base +:+ comment +:+ ".log" /\
  log_file_name ("." +:+ ext) comment = "log_" +:+ comment +:+ ".log".
Proof.
  intros Hdot. unfold log_file_name.
  rewrite (before_dot_prefix base ext Hdot). split; reflexivity.
Qed.

(** ** Epochs and runs *)

Lemma count_events_app {R : Type} (p : @event R -> bool) (a b : list (@event R)) :
  count_events p (a ++ b) = (count_events p a + count_events p b)%nat.
Proof. unfold count_events. rewrite List.filter_app, length_app. reflexivity. Qed.

Lemma enumerate1_indices {A : Type} (l : list A) :
  (enumerate1 l).*1 = seq 1 (length l).
Proof. unfold enumerate1. apply fst_zip. rewrite length_seq. lia. Qed.

Lemma last_seq_1 (k : nat) : last (seq 1 (S k)) = Some (S k).
Proof. rewrite seq_S, last_snoc. reflexivity. Qed.

(** Among [1 .. k] there are [k / 50] multiples of the log step. *)
Lemma log_steps_upto (k : nat) :
  length (List.filter (fun n => (n mod log_step =? 0)%nat) (seq 1 k))
  = (k / log_step)%nat.
Proof.
  unfold log_step. induction k as [|k IH]; [reflexivity|].
  rewrite seq_S, List.filter_app, length_app, IH. cbn [List.filter].
  change (1 + k)%nat with (S k).
  destruct (Nat.eqb_spec (S k mod 50) 0) as [H0|H0]; cbn [length].
  - pose proof (Nat.div_mod_eq (S k) 50). pose proof (Nat.div_mod_eq k 50).
    pose proof (Nat.mod_upper_bound k 50). nia.
  - pose proof (Nat.div_mod_eq (S k) 50). pose proof (Nat.div_mod_eq k 50).
    pose proof (Nat.mod_upper_bound k 50). pose proof (Nat.mod_upper_bound (S k) 50).
    nia.
Qed.

Section TrainingMore.

Context {E Img W G O Sc R : Type}.
Variable zero : E.
Variable encoder_cnn : W -> bool -> list Img -> list E.
Variable lstm_model : W -> bool -> list (list E) -> list Z -> result (list E).
Variable dot : E -> E -> Sc.
Variable cross_entropy : list (list Sc) -> list nat -> R.
Variable radd : R -> R -> R.
Variable rzero : R.
Variable backward : (W * W * W -> result R) -> W * W * W -> G.
Variable clip_grad_norm : G -> G.
Variable optimizer_step : O -> nat -> W * W * W -> G -> W * W * W * O.
Variable epochs : Z.
Variable comment : string.
Variable train_loader : nat -> list (@input_data Img).
Variable val_loader : nat -> list (@input_data Img).

Local Abbreviation state' := (@state W O R).
Local Abbreviation locals' := (@locals R).
Local Abbreviation losses' := (@losses Sc R).
Local Abbreviation train_forward' :=
  (train_forward zero encoder_cnn lstm_model dot cross_entropy radd).
Local Abbreviation one_step' :=
  (one_step zero encoder_cnn lstm_model dot cross_entropy radd
     backward clip_grad_norm optimizer_step epochs).
Local Abbreviation train_batch' :=
  (train_batch zero encoder_cnn lstm_model dot cross_entropy radd
     backward clip_grad_norm optimizer_step epochs).
Local Abbreviation valid_batch' :=
  (valid_batch zero encoder_cnn lstm_model dot cross_entropy radd).
Local Abbreviation train_phase' :=
  (train_phase zero encoder_cnn lstm_model dot cross_entropy radd rzero
     backward clip_grad_norm optimizer_step epochs comment train_loader).
Local Abbreviation valid_phase' :=
  (valid_phase zero encoder_cnn lstm_model dot cross_entropy radd rzero val_loader).
Local Abbreviation epoch_body' :=
  (epoch_body zero encoder_cnn lstm_model dot cross_entropy radd rzero
     backward clip_grad_norm optimizer_step epochs comment train_loader val_loader).
Local Abbreviation train' :=
  (train zero encoder_cnn lstm_model dot cross_entropy radd rzero
     backward clip_grad_norm optimizer_step epochs comment train_loader val_loader).

Lemma step_events_counts (epoch n : nat) (l : losses') :
  count_events is_optimizer_step (step_events radd epochs epoch n l) = 1%nat /\
  count_events is_backward (step_events radd epochs epoch n l) = 1%nat /\
  count_events is_step_log (step_events radd epochs epoch n l)
  = (if (n mod log_step =? 0)%nat then 1 else 0)%nat.
Proof.
  unfold step_events. destruct (n mod log_step =? 0)%nat;
    repeat apply conj; reflexivity.
Qed.

(** What the training loop leaves behind, counted. *)
Lemma train_loop_counts (epoch : nat) (items : list (nat * input_data))
    (st st' : state') (loc loc' : locals') :
  for_each (train_batch' epoch) items (st, loc) = Ok (st', loc') ->
  exists steps,
    trace st' = trace st ++ steps /\
    count_events is_optimizer_step steps = length items /\
    count_events is_backward steps = length items /\
    count_events is_step_log steps
    = length (List.filter (fun n => (n mod log_step =? 0)%nat) (items.*1)) /\
    batch_num loc' = from_option Some (batch_num loc) (last (items.*1)).
Proof.
  revert st loc. induction items as [|[n d] items IH]; intros st loc H.
  - simpl in H. simplify_eq. exists []. rewrite app_nil_r.
    repeat apply conj; reflexivity.
  - simpl in H. apply bind_ok in H as ([st1 loc1] & H1 & H).
    apply (train_batch_inv zero encoder_cnn lstm_model dot cross_entropy radd
             backward clip_grad_norm optimizer_step epochs) in H1
      as (l & _ & Htr & _ & _ & _ & _ & _ & _ & _ & Hn).
    apply IH in H as (steps & Htr' & Ho & Hb & Hl & Hbn).
    destruct (step_events_counts epoch n l) as (Ho1 & Hb1 & Hl1).
    exists (step_events radd epochs epoch n l ++ steps).
    rewrite Htr', Htr, app_assoc, !count_events_app, Ho, Hb, Hl, Ho1, Hb1, Hl1.
    rewrite Hbn, Hn. rewrite fmap_cons, last_cons. cbn [fst List.filter].
    repeat apply conj; try reflexivity.
    + destruct (n mod log_step =? 0)%nat; reflexivity.
    + destruct (last (items.*1)); reflexivity.
Qed.

Lemma valid_loop_locals (items : list (nat * input_data))
    (st st' : state') (loc loc' : locals') :
  for_each valid_batch' items (st, loc) = Ok (st', loc') ->
  batch_num loc' = from_option Some (batch_num loc) (last (items.*1)) /\
  (items = [] -> total_loss loc' = total_loss loc).
Proof.
  revert st loc. induction items as [|[n d] items IH]; intros st loc H.
  - simpl in H. simplify_eq. split; reflexivity.
  - simpl in H. apply bind_ok in H as ([st1 loc1] & H1 & H).
    unfold valid_batch in H1. apply bind_ok in H1 as (l & _ & H1).
    simplify_eq. apply IH in H as [Hbn _]. split; [|discriminate].
    rewrite Hbn, fmap_cons, last_cons. simpl.
    destruct (last (items.*1)); reflexivity.
Qed.

(** The batch number that a loop over a loader leaves in [batch_num]. *)
Lemma batch_num_after {A : Type} (l : list A) (bn : option nat) :
  from_option Some bn (last ((enumerate1 l).*1))
  = match l with [] => bn | _ => Some (length l) end.
Proof.
  rewrite enumerate1_indices. destruct l as [|x l]; [reflexivity|].
  cbn [length]. rewrite last_seq_1. reflexivity.
Qed.

(** A completed training phase, in full. *)
Lemma train_phase_full (epoch : nat) (st st' : state') (bn bn' : option nat) :
  train_phase' epoch (st, bn) = Ok (st', bn') ->
  exists steps total n,
    trace st'
    = trace st
      ++ [SchedulerStep; SetTrain EncoderCnn true; SetTrain FRnn true;
          SetTrain BRnn true]
      ++ steps
      ++ [LogInfo (TrainLoss epoch total n); Save FRnn (f_rnn_path comment);
          Save BRnn (b_rnn_path comment);
          Save EncoderCnn (encoder_cnn_path comment)] /\
    count_events is_optimizer_step steps = length (train_loader epoch) /\
    count_events is_backward steps = length (train_loader epoch) /\
    count_events is_step_log steps = (length (train_loader epoch) / log_step)%nat /\
    sched_steps st' = S (sched_steps st) /\
    checkpoints st'
    = <[encoder_cnn_path comment := cnn_w st']>
        (<[b_rnn_path comment := b_w st']>
           (<[f_rnn_path comment := f_w st']> (checkpoints st))) /\
    cnn_training st' = true /\ f_training st' = true /\ b_training st' = true /\
    bn' = Some n /\
    match train_loader epoch with [] => bn | _ => Some (length (train_loader epoch)) end
    = Some n.
Proof.
  unfold train_phase. intros H.
  apply bind_ok in H as ([st1 loc1] & Hloop & H).
  pose proof (train_loop_inv zero encoder_cnn lstm_model dot cross_entropy radd
                backward clip_grad_norm optimizer_step epochs _ _ _ _ _ _ Hloop)
    as (steps0 & Htr0 & _ & Hs & Hf & Hm1 & Hm2 & Hm3).
  apply train_loop_counts in Hloop as (steps & Htr & Ho & Hb & Hl & Hbn).
  rewrite enumerate1_indices, log_steps_upto in Hl.
  unfold enumerate1 in Ho, Hb. rewrite length_zip, length_seq, Nat.min_id in Ho, Hb.
  simpl in Hbn. rewrite batch_num_after in Hbn.
  destruct (batch_num loc1) as [n|] eqn:Hn; [|discriminate].
  simplify_eq/=. exists steps, (total_loss loc1), n.
  rewrite Htr, Hs, Hf, Hm1, Hm2, Hm3. simpl.
  rewrite <- !app_assoc. simpl. repeat apply conj; auto.
Qed.

(** A completed validation phase, in full. *)
Lemma valid_phase_full (epoch : nat) (st st' : state') (bn bn' : option nat) :
  valid_phase' epoch (st, bn) = Ok (st', bn') ->
  exists total n,
    trace st'
    = trace st
      ++ [SetTrain EncoderCnn false; SetTrain FRnn false; SetTrain BRnn false;
          LogInfo (ValidLoss epoch total n)] /\
    cnn_w st' = cnn_w st /\ f_w st' = f_w st /\ b_w st' = b_w st /\
    opt st' = opt st /\
    sched_steps st' = sched_steps st /\
    checkpoints st' = checkpoints st /\
    cnn_training st' = false /\ f_training st' = false /\ b_training st' = false /\
    bn' = Some n /\
    match val_loader epoch with [] => bn | _ => Some (length (val_loader epoch)) end
    = Some n /\
    (val_loader epoch = [] -> total = rzero).
Proof.
  unfold valid_phase. intros H.
  apply bind_ok in H as ([st1 loc1] & Hloop & H).
  pose proof (valid_loop_inv zero encoder_cnn lstm_model dot cross_entropy radd
                _ _ _ _ _ Hloop) as ->.
  apply valid_loop_locals in Hloop as [Hbn Htot].
  simpl in Hbn. rewrite batch_num_after in Hbn.
  destruct (batch_num loc1) as [n|] eqn:Hn; [|discriminate].
  simplify_eq/=. exists (total_loss loc1), n.
  rewrite <- !app_assoc. simpl. repeat apply conj; auto.
  intros Hnil. apply Htot. unfold enumerate1. rewrite Hnil. reflexivity.
Qed.

(** A completed epoch, in full. *)
Lemma epoch_full (epoch : nat) (st st' : state') (bn bn' : option nat) :
  epoch_body' (st, bn) epoch = Ok (st', bn') ->
  exists steps t1 n1 t2 n2,
    trace st'
    = trace st
      ++ [SchedulerStep; SetTrain EncoderCnn true; SetTrain FRnn true;
          SetTrain BRnn true]
      ++ steps
      ++ [LogInfo (TrainLoss epoch t1 n1); Save FRnn (f_rnn_path comment);
          Save BRnn (b_rnn_path comment);
          Save EncoderCnn (encoder_cnn_path comment);
          SetTrain EncoderCnn false; SetTrain FRnn false; SetTrain BRnn false;
          LogInfo (ValidLoss epoch t2 n2)] /\
    count_events is_optimizer_step steps = length (train_loader epoch) /\
    count_events is_backward steps = length (train_loader epoch) /\
    count_events is_step_log steps = (length (train_loader epoch) / log_step)%nat /\
    sched_steps st' = S (sched_steps st) /\
    checkpoints st'
    = <[encoder_cnn_path comment := cnn_w st']>
        (<[b_rnn_path comment := b_w st']>
           (<[f_rnn_path comment := f_w st']> (checkpoints st))) /\
    cnn_training st' = false /\ f_training st' = false /\ b_training st' = false.
Proof.
  unfold epoch_body. intros H.
  apply bind_ok in H as ([st1 bn1] & Ht & Hv).
  apply train_phase_full in Ht
    as (steps & total & n & Htr & Ho & Hb & Hl & Hs & Hf & _).
  apply valid_phase_full in Hv
    as (total' & n' & Htr' & Hw1 & Hw2 & Hw3 & _ & Hs' & Hf' & Hm1 & Hm2 & Hm3 & _).
  exists steps, total, n, total', n'.
  rewrite Htr', Htr, Hs', Hs, Hf', Hf, Hw1, Hw2, Hw3.
  rewrite <- !app_assoc. simpl. repeat apply conj; auto.
Qed.

(** The training loop is a chain of optimisation steps, one for each batch. *)
Lemma train_loop_chain (epoch : nat) (items : list (nat * input_data))
    (st st' : state') (loc loc' : locals') :
  for_each (train_batch' epoch) items (st, loc) = Ok (st', loc') ->
  chain (one_step' epoch) items st st'.
Proof.
  revert st loc. induction items as [|[n d] items IH]; intros st loc H.
  - simpl in H. simplify_eq. reflexivity.
  - simpl in H. apply bind_ok in H as ([st1 loc1] & H1 & H).
    apply (train_batch_inv zero encoder_cnn lstm_model dot cross_entropy radd
             backward clip_grad_norm optimizer_step epochs) in H1
      as (l & Hl & Htr & _ & _ & _ & _ & _ & Hstep & _).
    exists st1. split; [|eapply IH, H].
    exists l. repeat apply conj; assumption.
Qed.

(** An epoch that completes takes its optimisation steps one for each batch
    of the training loader, in the order of the loader: each step runs the
    forward pass of its batch, one backward pass, one clipping and one
    optimiser step, which moves the parameters along the clipped gradient of
    the loss of that batch.  What follows the last step (the summary line,
    the three checkpoints and the validation phase) takes no backward pass
    and no optimiser step, and leaves the parameters and the optimiser state
    as the last step left them. *)
Theorem one_optimizer_step_per_batch (epoch : nat) (st st' : state')
    (bn bn' : option nat) :
  epoch_body' (st, bn) epoch = Ok (st', bn') ->
  exists (s_n : state') total n total_valid n_valid,
    chain (one_step' epoch) (enumerate1 (train_loader epoch))
      (set_train true (scheduler_step st)) s_n /\
    (enumerate1 (train_loader epoch)).*1 = seq 1 (length (train_loader epoch)) /\
    (enumerate1 (train_loader epoch)).*2 = train_loader epoch /\
    trace st'
    = trace s_n
      ++ [LogInfo (TrainLoss epoch total n); Save FRnn (f_rnn_path comment);
          Save BRnn (b_rnn_path comment);
          Save EncoderCnn (encoder_cnn_path comment);
          SetTrain EncoderCnn false; SetTrain FRnn false; SetTrain BRnn false;
          LogInfo (ValidLoss epoch total_valid n_valid)] /\
    weights st' = weights s_n /\
    opt st' = opt s_n /\
    exists tr,
      trace st' = trace st ++ tr /\
      count_events is_optimizer_step tr = length (train_loader epoch) /\
      count_events is_backward tr = length (train_loader epoch).
Proof.
  intros H.
  assert (Hcount : exists tr,
             trace st' = trace st ++ tr /\
             count_events is_optimizer_step tr = length (train_loader epoch) /\
             count_events is_backward tr = length (train_loader epoch)).
  { pose proof (epoch_full _ _ _ _ _ H)
      as (steps & t1 & n1 & t2 & n2 & Htr & Ho & Hb & _).
    eexists. split; [exact Htr|].
    rewrite !count_events_app, Ho, Hb. cbn. split; lia. }
  unfold epoch_body in H.
  apply bind_ok in H as ([st1 bn1] & Ht & Hv).
  unfold train_phase in Ht.
  apply bind_ok in Ht as ([s_n loc1] & Hloop & Ht).
  apply train_loop_chain in Hloop.
  destruct (batch_num loc1) as [n|] eqn:Hn; [|discriminate].
  apply valid_phase_full in Hv
    as (tv & nv & Htr' & Hw1 & Hw2 & Hw3 & Hop & _).
  simplify_eq/=.
  exists s_n, (total_loss loc1), n, tv, nv.
  split; [exact Hloop|].
  split; [apply enumerate1_indices|].
  split; [unfold enumerate1; apply snd_zip; rewrite length_seq; lia|].
  split; [rewrite Htr'; simpl; rewrite <- !app_assoc; reflexivity|].
  split; [unfold weights; rewrite Hw1, Hw2, Hw3; reflexivity|].
  split; [exact Hop|].
  exact Hcount.
Qed.

(** An epoch that completes over [n] training batches writes [n / 50] step
    lines to the log: one at every fiftieth batch. *)
Theorem step_log_every_fifty (epoch : nat) (st st' : state')
    (bn bn' : option nat) :
  epoch_body' (st, bn) epoch = Ok (st', bn') ->
  exists tr,
    trace st' = trace st ++ tr /\
    count_events is_step_log tr = (length (train_loader epoch) / 50)%nat.
Proof.
  intros H.
  apply epoch_full in H as (steps & t1 & n1 & t2 & n2 & Htr & _ & _ & Hl & _).
  eexists. split; [exact Htr|].
  rewrite !count_events_app, Hl. unfold log_step. cbn. lia.
Qed.

(** With an empty validation loader the validation line of an epoch reports
    a total of zero against the number of training batches: [batch_num] still
    holds the count of the training loop. *)
Theorem empty_validation_reuses_batch_num (epoch : nat) (st st' : state')
    (bn bn' : option nat) :
  epoch_body' (st, bn) epoch = Ok (st', bn') ->
  val_loader epoch = [] ->
  train_loader epoch <> [] ->
  last (trace st')
  = Some (LogInfo (ValidLoss epoch rzero (length (train_loader epoch)))) /\
  bn' = Some (length (train_loader epoch)).
Proof.
  unfold epoch_body. intros H Hval Htrain.
  apply bind_ok in H as ([st1 bn1] & Ht & Hv).
  apply train_phase_full in Ht
    as (steps & total & n & _ & _ & _ & _ & _ & _ & _ & _ & _ & Hbn1 & Hn).
  apply valid_phase_full in Hv
    as (total' & n' & Htr' & _ & _ & _ & _ & _ & _ & _ & _ & _ & Hbn' & Hn' & Htot).
  rewrite Hval in Hn'. rewrite (Htot Hval) in Htr'.
  destruct (train_loader epoch) as [|d rest] eqn:Hl; [congruence|].
  simplify_eq. rewrite Htr'. split; [|reflexivity].
  rewrite last_app. reflexivity.
Qed.

(** With an empty training loader the first epoch raises: the summary line
    reads [batch_num], which no iteration has bound. *)
Theorem empty_training_loader_raises (st : state') :
  0 < epochs ->
  train_loader 1%nat = [] ->
  train zero encoder_cnn lstm_model dot cross_entropy radd rzero
    backward clip_grad_norm optimizer_step epochs comment train_loader val_loader st
  = Raise UnboundLocal.
Proof.
  intros Hep Hnil. unfold train.
  destruct (Z.to_nat epochs) as [|k] eqn:Hk; [lia|].
  cbn [seq for_each]. unfold epoch_body, train_phase. rewrite Hnil. reflexivity.
Qed.

(** The first batch of the first epoch that the builder rejects ends the
    run with the builder's error; the encoder has run in training mode. *)
Theorem builder_error_ends_training (st : state') (d : input_data)
    (rest : list input_data) (e : error) :
  0 < epochs ->
  train_loader 1%nat = d :: rest ->
  build_batch zero (encoder_cnn (cnn_w st) true (images d)) (lengths d) = Raise e ->
  train' st = Raise e.
Proof.
  intros Hep Hl Hb. unfold train.
  destruct (Z.to_nat epochs) as [|k] eqn:Hk; [lia|].
  cbn [seq for_each]. unfold epoch_body, train_phase. rewrite Hl.
  unfold enumerate1. cbn [length seq zip zip_with for_each].
  unfold train_batch at 1. unfold train_forward. simpl. rewrite Hb. reflexivity.
Qed.

(** What a run of several epochs keeps. *)
Lemma epochs_inv (es : list nat) (st st' : state') (bn bn' : option nat) :
  for_each epoch_body' es (st, bn) = Ok (st', bn') ->
  sched_steps st' = (sched_steps st + length es)%nat /\
  (forall path : string,
     path <> f_rnn_path comment -> path <> b_rnn_path comment ->
     path <> encoder_cnn_path comment ->
     checkpoints st' !! path = checkpoints st !! path) /\
  (es <> [] ->
     checkpoints st' !! f_rnn_path comment = Some (f_w st') /\
     checkpoints st' !! b_rnn_path comment = Some (b_w st') /\
     checkpoints st' !! encoder_cnn_path comment = Some (cnn_w st') /\
     cnn_training st' = false /\ f_training st' = false /\ b_training st' = false).
Proof.
  revert st bn. induction es as [|epoch es IH]; intros st bn H.
  - simpl in H. simplify_eq. split; [simpl; lia|]. split; [reflexivity | congruence].
  - simpl in H. apply bind_ok in H as ([st1 bn1] & H1 & H).
    apply epoch_full in H1
      as (steps & t1 & n1 & t2 & n2 & _ & _ & _ & _ & Hs & Hf & Hm1 & Hm2 & Hm3).
    destruct (checkpoint_paths_differ comment) as (Hfb & Hfe & Hbe).
    destruct es as [|epoch' es'].
    + simpl in H. simplify_eq. rewrite Hs, Hf.
      split; [simpl; lia|]. split.
      * intros path Hp1 Hp2 Hp3. rewrite !lookup_insert_ne by congruence. reflexivity.
      * intros _. repeat apply conj; try assumption.
        -- rewrite lookup_insert_ne, lookup_insert_ne, lookup_insert_eq by congruence.
           reflexivity.
        -- rewrite lookup_insert_ne, lookup_insert_eq by congruence. reflexivity.
        -- rewrite lookup_insert_eq. reflexivity.
    + apply IH in H as (Hs' & Hother & Hlast).
      split; [rewrite Hs', Hs; simpl; lia|]. split.
      * intros path Hp1 Hp2 Hp3. rewrite (Hother path Hp1 Hp2 Hp3), Hf.
        rewrite !lookup_insert_ne by congruence. reflexivity.
      * intros _. apply Hlast. discriminate.
Qed.

(** A run that completes has advanced the learning-rate schedule once per
    epoch, and not at all when the number of epochs is zero or less. *)
Theorem schedule_steps_of_run (st st' : state') (bn' : option nat) :
  train zero encoder_cnn lstm_model dot cross_entropy radd rzero
    backward clip_grad_norm optimizer_step epochs comment train_loader val_loader st
  = Ok (st', bn') ->
  sched_steps st' = (sched_steps st + Z.to_nat epochs)%nat.
Proof.
  unfold train. intros H. apply epochs_inv in H as (Hs & _).
  rewrite Hs, length_seq. reflexivity.
Qed.

(** After a run of one epoch or more the three checkpoint paths hold the
    parameters the models end with, however many epochs have written them;
    the three names differ, and [torch.save] has written to no other path:
    what was saved under another name before the run is still there.  (The
    log file is not a checkpoint: [logger.info] appends to it, see
    [log_lines].) *)
Theorem checkpoints_of_run (st st' : state') (bn' : option nat) :
  0 < epochs ->
  train' st = Ok (st', bn') ->
  checkpoints st' !! f_rnn_path comment = Some (f_w st') /\
  checkpoints st' !! b_rnn_path comment = Some (b_w st') /\
  checkpoints st' !! encoder_cnn_path comment = Some (cnn_w st') /\
  f_rnn_path comment <> b_rnn_path comment /\
  f_rnn_path comment <> encoder_cnn_path comment /\
  b_rnn_path comment <> encoder_cnn_path comment /\
  forall path : string,
    path <> f_rnn_path comment -> path <> b_rnn_path comment ->
    path <> encoder_cnn_path comment ->
    checkpoints st' !! path = checkpoints st !! path.
Proof.
  unfold train. intros Hep H. apply epochs_inv in H as (_ & Hother & Hlast).
  destruct Hlast as (Hf & Hb & He & _).
  { destruct (Z.to_nat epochs) eqn:Hk; [lia | discriminate]. }
  destruct (checkpoint_paths_differ comment) as (Hfb & Hfe & Hbe).
  repeat apply conj; assumption.
Qed.

(** A run of one epoch or more leaves the three models in evaluation mode. *)
Theorem run_ends_in_eval_mode (st st' : state') (bn' : option nat) :
  0 < epochs ->
  train zero encoder_cnn lstm_model dot cross_entropy radd rzero
    backward clip_grad_norm optimizer_step epochs comment train_loader val_loader st
  = Ok (st', bn') ->
  cnn_training st' = false /\ f_training st' = false /\ b_training st' = false.
Proof.
  unfold train. intros Hep H. apply epochs_inv in H as (_ & _ & Hlast).
  destruct Hlast as (_ & _ & _ & Hm).
  { destruct (Z.to_nat epochs) eqn:Hk; [lia | discriminate]. }
  exact Hm.
Qed.

End TrainingMore.

(** ** The further properties at the instance *)

Lemma flip_tensor_rows_witness :
  (1 < length [10; 11; 12])%nat /\
  flip_tensor 0 [10; 11; 12] !! 1%nat = [10; 11; 12] !! (length [10; 11; 12] - 1 - 1)%nat.
Proof.
  assert (H : (1 < length [10; 11; 12])%nat) by (simpl; lia).
  split; [exact H|].
  exact (proj2 (flip_tensor_rows 0 [10; 11; 12]) 1%nat H).
Defined.

Lemma slices_truncate_witness :
  Forall (fun L => 1 <= L) [2; 2] /\
  [2; 2] !! 1%nat = Some 2 /\
  snd (input_emb_loop [1; 2; 3] [2; 2]) !! 1%nat = Some [3] /\
  snd (target_emb_loop [1; 2; 3] [2; 2]) !! 1%nat = Some [].
Proof.
  assert (H1 : Forall (fun L => 1 <= L) [2; 2]) by (repeat constructor; lia).
  assert (H2 : [2; 2] !! 1%nat = Some 2) by reflexivity.
  split; [exact H1|]. split; [exact H2|].
  exact (slices_truncate [1; 2; 3] [2; 2] 1 2 H1 H2).
Defined.

Lemma target_is_input_shifted_witness :
  foldr Z.add 0 [4; 3] = Z.of_nat (length [10; 11; 12; 13; 20; 21; 22]) /\
  Forall (fun L => 2 <= L) [4; 3] /\
  [4; 3] !! 0%nat = Some 4 /\
  exists x mid y,
    snd (input_emb_loop [10; 11; 12; 13; 20; 21; 22] [4; 3]) !! 0%nat = Some (x :: mid) /\
    snd (target_emb_loop [10; 11; 12; 13; 20; 21; 22] [4; 3]) !! 0%nat
    = Some (mid ++ [y]) /\
    take (Z.to_nat 4) (drop (Z.to_nat (offset [4; 3] 0)) [10; 11; 12; 13; 20; 21; 22])
    = x :: mid ++ [y].
Proof.
  assert (H1 : foldr Z.add 0 [4; 3]
               = Z.of_nat (length [10; 11; 12; 13; 20; 21; 22])) by reflexivity.
  assert (H2 : Forall (fun L => 2 <= L) [4; 3]) by (repeat constructor; lia).
  assert (H3 : [4; 3] !! 0%nat = Some 4) by reflexivity.
  split; [exact H1|]. split; [exact H2|]. split; [exact H3|].
  exact (target_is_input_shifted [10; 11; 12; 13; 20; 21; 22] [4; 3] 0 4 H1 H2 H3).
Defined.

Lemma padded_shapes_witness :
  [2; 2] <> [] /\
  exists p (Ti Tt : nat),
    pad_batch 0 [1; 2; 3] [2; 2] = Ok p /\
    length (f_input_pad p) = length [2; 2] /\
    length (b_target_pad p) = length [2; 2] /\
    length (f_target_pad p) = length [2; 2] /\
    length (b_input_pad p) = length [2; 2] /\
    Forall (fun row => length row = Ti) (f_input_pad p) /\
    Forall (fun row => length row = Ti) (b_target_pad p) /\
    Forall (fun row => length row = Tt) (f_target_pad p) /\
    Forall (fun row => length row = Tt) (b_input_pad p).
Proof.
  assert (H : [2; 2] <> []) by discriminate.
  split; [exact H|].
  exact (padded_shapes 0 [1; 2; 3] [2; 2] H).
Defined.

Lemma padded_width_witness :
  [4; 3] <> [] /\
  foldr Z.add 0 [4; 3] = Z.of_nat (length [10; 11; 12; 13; 20; 21; 22]) /\
  Forall (fun L => 2 <= L) [4; 3] /\
  exists p,
    pad_batch 0 [10; 11; 12; 13; 20; 21; 22] [4; 3] = Ok p /\
    Forall (fun row => Z.of_nat (length row) = max_length (effective_lengths [4; 3]))
      (f_input_pad p ++ b_target_pad p ++ f_target_pad p ++ b_input_pad p).
Proof.
  assert (H0 : [4; 3] <> []) by discriminate.
  assert (H1 : foldr Z.add 0 [4; 3]
               = Z.of_nat (length [10; 11; 12; 13; 20; 21; 22])) by reflexivity.
  assert (H2 : Forall (fun L => 2 <= L) [4; 3]) by (repeat constructor; lia).
  split; [exact H0|]. split; [exact H1|]. split; [exact H2|].
  exact (padded_width_is_longest 0 [10; 11; 12; 13; 20; 21; 22] [4; 3] H0 H1 H2).
Defined.

Lemma packed_inputs_witness :
  [4; 3] <> [] /\
  foldr Z.add 0 [4; 3] = Z.of_nat (length [10; 11; 12; 13; 20; 21; 22]) /\
  Forall (fun L => 2 <= L) [4; 3] /\
  Sorted Z.ge (effective_lengths [4; 3]) /\
  exists b f_rows b_rows,
    build_batch 0 [10; 11; 12; 13; 20; 21; 22] [4; 3] = Ok b /\
    pack_padded_sequence (f_input_embs b) (seq_lengths b) = Ok f_rows /\
    pack_padded_sequence (b_input_embs b) (seq_lengths b) = Ok b_rows /\
    Forall2 (consecutive [10; 11; 12; 13; 20; 21; 22]) f_rows (f_target_embs b) /\
    Forall2 (fun x y => consecutive [10; 11; 12; 13; 20; 21; 22] y x)
      b_rows (b_target_embs b).
Proof.
  assert (H0 : [4; 3] <> []) by discriminate.
  assert (H1 : foldr Z.add 0 [4; 3]
               = Z.of_nat (length [10; 11; 12; 13; 20; 21; 22])) by reflexivity.
  assert (H2 : Forall (fun L => 2 <= L) [4; 3]) by (repeat constructor; lia).
  assert (H3 : Sorted Z.ge (effective_lengths [4; 3])).
  { repeat constructor. simpl. lia. }
  split; [exact H0|]. split; [exact H1|]. split; [exact H2|]. split; [exact H3|].
  exact (packed_inputs_align_with_targets 0 [10; 11; 12; 13; 20; 21; 22] [4; 3]
           H0 H1 H2 H3).
Defined.

Lemma target_count_witness :
  [4; 3] <> [] /\
  foldr Z.add 0 [4; 3] = Z.of_nat (length [10; 11; 12; 13; 20; 21; 22]) /\
  Forall (fun L => 2 <= L) [4; 3] /\
  Sorted Z.ge (effective_lengths [4; 3]) /\
  exists b,
    build_batch 0 [10; 11; 12; 13; 20; 21; 22] [4; 3] = Ok b /\
    Z.of_nat (length (f_target_embs b)) = 7 - 2 /\
    Z.of_nat (length (b_target_embs b)) = 7 - 2.
Proof.
  assert (H0 : [4; 3] <> []) by discriminate.
  assert (H1 : foldr Z.add 0 [4; 3]
               = Z.of_nat (length [10; 11; 12; 13; 20; 21; 22])) by reflexivity.
  assert (H2 : Forall (fun L => 2 <= L) [4; 3]) by (repeat constructor; lia).
  assert (H3 : Sorted Z.ge (effective_lengths [4; 3])).
  { repeat constructor. simpl. lia. }
  split; [exact H0|]. split; [exact H1|]. split; [exact H2|]. split; [exact H3|].
  exact (target_count 0 [10; 11; 12; 13; 20; 21; 22] [4; 3] H0 H1 H2 H3).
Defined.

Lemma criterion_accepts_witness :
  (length [1; 2] <= length [3; 4; 5])%nat /\
  exists v,
    criterion Demo.cross_entropy (matmul_t Z.mul [1; 2] [3; 4; 5])
      (arange (length (matmul_t Z.mul [1; 2] [3; 4; 5]))) = Ok v.
Proof.
  assert (H : (length [1; 2] <= length [3; 4; 5])%nat) by (simpl; lia).
  split; [exact H|].
  exact (proj2 (criterion_accepts_iff Z.mul Demo.cross_entropy [1; 2] [3; 4; 5]) H).
Defined.

Lemma log_file_name_witness :
  ~ In "."%char (String.list_ascii_of_string "train_softmax_bi") /\
  log_file_name "train_softmax_bi.py" "_run1" = "log_train_softmax_bi_run1.log" /\
  log_file_name "./train_softmax_bi.py" "_run1" = "log__run1.log".
Proof.
  assert (H : ~ In "."%char (String.list_ascii_of_string "train_softmax_bi")).
  { simpl. intros Hin. repeat (destruct Hin as [Hin|Hin]; [discriminate Hin|]).
    exact Hin. }
  split; [exact H|].
  destruct (log_file_name_of_path "train_softmax_bi" "py" "_run1" H) as [H1 _].
  destruct (log_file_name_of_path "" "/train_softmax_bi.py" "_run1" (fun x => x))
    as [_ H2].
  split; [exact H1 | exact H2].
Defined.

Lemma one_optimizer_step_witness :
  Runs.epoch_with Runs.long_loader Demo.loader (Demo.st0, None) 1%nat
  = Ok (Runs.after_long_epoch.1, Runs.after_long_epoch.2) /\
  exists (s_n : @state Z Z Z),
    weights Runs.after_long_epoch.1 = weights s_n /\
    opt Runs.after_long_epoch.1 = opt s_n /\
    exists tr,
      trace Runs.after_long_epoch.1 = trace Demo.st0 ++ tr /\
      count_events is_optimizer_step tr = length (Runs.long_loader 1%nat) /\
      count_events is_backward tr = length (Runs.long_loader 1%nat).
Proof.
  assert (H : Runs.epoch_with Runs.long_loader Demo.loader (Demo.st0, None) 1%nat
              = Ok (Runs.after_long_epoch.1, Runs.after_long_epoch.2))
    by (vm_compute; reflexivity).
  split; [exact H|].
  destruct (one_optimizer_step_per_batch 0 Demo.encoder_cnn Demo.lstm_model Z.mul
              Demo.cross_entropy Z.add 0 Demo.backward Demo.clip_grad_norm
              Demo.optimizer_step 1 "_run1" Runs.long_loader Demo.loader 1%nat
              Demo.st0 Runs.after_long_epoch.1 None Runs.after_long_epoch.2 H)
    as (s_n & total & n & tv & nv & _ & _ & _ & _ & Hw & Ho & Hc).
  exists s_n. split; [exact Hw|]. split; [exact Ho | exact Hc].
Defined.

Lemma step_log_witness :
  Runs.epoch_with Runs.long_loader Demo.loader (Demo.st0, None) 1%nat
  = Ok (Runs.after_long_epoch.1, Runs.after_long_epoch.2) /\
  exists tr,
    trace Runs.after_long_epoch.1 = trace Demo.st0 ++ tr /\
    count_events is_step_log tr = (length (Runs.long_loader 1%nat) / 50)%nat.
Proof.
  assert (H : Runs.epoch_with Runs.long_loader Demo.loader (Demo.st0, None) 1%nat
              = Ok (Runs.after_long_epoch.1, Runs.after_long_epoch.2))
    by (vm_compute; reflexivity).
  split; [exact H|].
  exact (step_log_every_fifty 0 Demo.encoder_cnn Demo.lstm_model Z.mul
           Demo.cross_entropy Z.add 0 Demo.backward Demo.clip_grad_norm
           Demo.optimizer_step 1 "_run1" Runs.long_loader Demo.loader 1%nat
           Demo.st0 Runs.after_long_epoch.1 None Runs.after_long_epoch.2 H).
Defined.

Lemma empty_validation_witness :
  Runs.epoch_with Runs.long_loader Runs.no_loader (Demo.st0, None) 1%nat
  = Ok (Runs.after_unvalidated_epoch.1, Runs.after_unvalidated_epoch.2) /\
  Runs.no_loader 1%nat = [] /\
  Runs.long_loader 1%nat <> [] /\
  last (trace Runs.after_unvalidated_epoch.1)
  = Some (LogInfo (ValidLoss 1 0 (length (Runs.long_loader 1%nat)))) /\
  Runs.after_unvalidated_epoch.2 = Some (length (Runs.long_loader 1%nat)).
Proof.
  assert (H : Runs.epoch_with Runs.long_loader Runs.no_loader (Demo.st0, None) 1%nat
              = Ok (Runs.after_unvalidated_epoch.1, Runs.after_unvalidated_epoch.2))
    by (vm_compute; reflexivity).
  assert (H1 : Runs.no_loader 1%nat = []) by reflexivity.
  assert (H2 : Runs.long_loader 1%nat <> []) by discriminate.
  split; [exact H|]. split; [exact H1|]. split; [exact H2|].
  exact (empty_validation_reuses_batch_num 0 Demo.encoder_cnn Demo.lstm_model Z.mul
           Demo.cross_entropy Z.add 0 Demo.backward Demo.clip_grad_norm
           Demo.optimizer_step 1 "_run1" Runs.long_loader Runs.no_loader 1%nat
           Demo.st0 Runs.after_unvalidated_epoch.1 None
           Runs.after_unvalidated_epoch.2 H H1 H2).
Defined.

Lemma empty_training_witness :
  0 < 3 /\
  Runs.no_loader 1%nat = [] /\
  Runs.run_with 3 Runs.no_loader Demo.loader Demo.st0 = Raise UnboundLocal.
Proof.
  assert (H1 : 0 < 3) by lia.
  assert (H2 : Runs.no_loader 1%nat = []) by reflexivity.
  split; [exact H1|]. split; [exact H2|].
  exact (empty_training_loader_raises 0 Demo.encoder_cnn Demo.lstm_model Z.mul
           Demo.cross_entropy Z.add 0 Demo.backward Demo.clip_grad_norm
           Demo.optimizer_step 3 "_run1" Runs.no_loader Demo.loader Demo.st0 H1 H2).
Defined.

Lemma builder_error_witness :
  0 < 3 /\
  Runs.unsorted_loader 1%nat = [Runs.unsorted] /\
  build_batch 0 (Demo.encoder_cnn (cnn_w Demo.st0) true (images Runs.unsorted))
    (lengths Runs.unsorted) = Raise LengthsNotSorted /\
  Runs.run_with 3 Runs.unsorted_loader Demo.loader Demo.st0 = Raise LengthsNotSorted.
Proof.
  assert (H1 : 0 < 3) by lia.
  assert (H2 : Runs.unsorted_loader 1%nat = [Runs.unsorted]) by reflexivity.
  assert (H3 : build_batch 0
                 (Demo.encoder_cnn (cnn_w Demo.st0) true (images Runs.unsorted))
                 (lengths Runs.unsorted) = Raise LengthsNotSorted)
    by (vm_compute; reflexivity).
  split; [exact H1|]. split; [exact H2|]. split; [exact H3|].
  exact (builder_error_ends_training 0 Demo.encoder_cnn Demo.lstm_model Z.mul
           Demo.cross_entropy Z.add 0 Demo.backward Demo.clip_grad_norm
           Demo.optimizer_step 3 "_run1" Runs.unsorted_loader Demo.loader
           Demo.st0 Runs.unsorted [] LengthsNotSorted H1 H2 H3).
Defined.

Lemma schedule_steps_witness :
  Runs.run_with 2 Demo.loader Demo.loader Demo.st0
  = Ok (Runs.after_two_epochs.1, Runs.after_two_epochs.2) /\
  sched_steps Runs.after_two_epochs.1 = (sched_steps Demo.st0 + Z.to_nat 2)%nat.
Proof.
  assert (H : Runs.run_with 2 Demo.loader Demo.loader Demo.st0
              = Ok (Runs.after_two_epochs.1, Runs.after_two_epochs.2))
    by (vm_compute; reflexivity).
  split; [exact H|].
  exact (schedule_steps_of_run 0 Demo.encoder_cnn Demo.lstm_model Z.mul
           Demo.cross_entropy Z.add 0 Demo.backward Demo.clip_grad_norm
           Demo.optimizer_step 2 "_run1" Demo.loader Demo.loader
           Demo.st0 Runs.after_two_epochs.1 Runs.after_two_epochs.2 H).
Defined.

Lemma checkpoints_witness :
  0 < 2 /\
  Runs.run_with 2 Demo.loader Demo.loader Demo.st0
  = Ok (Runs.after_two_epochs.1, Runs.after_two_epochs.2) /\
  checkpoints Runs.after_two_epochs.1 !! "f_rnn_run1.pth" = Some (f_w Runs.after_two_epochs.1) /\
  checkpoints Runs.after_two_epochs.1 !! "b_rnn_run1.pth" = Some (b_w Runs.after_two_epochs.1) /\
  checkpoints Runs.after_two_epochs.1 !! "encoder_cnn_run1.pth"
  = Some (cnn_w Runs.after_two_epochs.1).
Proof.
  assert (H1 : 0 < 2) by lia.
  assert (H : Runs.run_with 2 Demo.loader Demo.loader Demo.st0
              = Ok (Runs.after_two_epochs.1, Runs.after_two_epochs.2))
    by (vm_compute; reflexivity).
  split; [exact H1|]. split; [exact H|].
  destruct (checkpoints_of_run 0 Demo.encoder_cnn Demo.lstm_model Z.mul
              Demo.cross_entropy Z.add 0 Demo.backward Demo.clip_grad_norm
              Demo.optimizer_step 2 "_run1" Demo.loader Demo.loader
              Demo.st0 Runs.after_two_epochs.1 Runs.after_two_epochs.2 H1 H)
    as (Hf & Hb & He & _).
  split; [exact Hf|]. split; [exact Hb | exact He].
Defined.

Lemma eval_mode_witness :
  0 < 2 /\
  Runs.run_with 2 Demo.loader Demo.loader Demo.st0
  = Ok (Runs.after_two_epochs.1, Runs.after_two_epochs.2) /\
  cnn_training Runs.after_two_epochs.1 = false /\
  f_training Runs.after_two_epochs.1 = false /\
  b_training Runs.after_two_epochs.1 = false.
Proof.
  assert (H1 : 0 < 2) by lia.
  assert (H : Runs.run_with 2 Demo.loader Demo.loader Demo.st0
              = Ok (Runs.after_two_epochs.1, Runs.after_two_epochs.2))
    by (vm_compute; reflexivity).
  split; [exact H1|]. split; [exact H|].
  exact (run_ends_in_eval_mode 0 Demo.encoder_cnn Demo.lstm_model Z.mul
           Demo.cross_entropy Z.add 0 Demo.backward Demo.clip_grad_norm
           Demo.optimizer_step 2 "_run1" Demo.loader Demo.loader
           Demo.st0 Runs.after_two_epochs.1 Runs.after_two_epochs.2 H1 H).
Defined.
